(** * Membership renewal reconciliation (helloasso-renew-contribution)

    A shallow embedding of the batch job of [main.go] and of the parts of
    [services/baserow], [services/helloasso] and [services/brevo] it relies
    on, followed by the properties of the reconciliation pass.

    Conventions.
    - Go's [int] is the 64-bit two's-complement integer of the three build
      targets; it is carried as [Z] and [wrap_int] is written where the
      program does arithmetic on it.
    - Go maps are [gmap]s.  Where the program turns a map into a slice
      ([lo.Values]) the order is unspecified in Go; the executable
      definition uses the canonical order of [map_to_list] and every
      statement about the resulting slice is made for all its permutations.
    - The three remote services and the wall clock are an explicit
      environment [Env]; a run threads a [World] (clock ticks consumed and
      the trace of remote calls made) through a small state monad. *)

From Stdlib Require Import ZArith Lia Ascii String.
From stdpp Require Import base option list strings pretty gmap.

Local Open Scope Z_scope.
Local Set Warnings "-register-all".

(** ** Go's 64-bit [int] *)

Definition min_int : Z := - 2 ^ 63.
Definition max_int : Z := 2 ^ 63 - 1.

Definition wrap_int (z : Z) : Z := (z + 2 ^ 63) mod 2 ^ 64 - 2 ^ 63.

(** ** Package [time], as far as the program uses it *)

Module time.

(** A [time.Time] is an instant together with a Location.  The instant is
    kept as the number of nanoseconds elapsed since January 1, year 1,
    00:00:00 UTC (Go's zero instant); the Location is kept as the offset
    it assigns, in seconds east of UTC.  Every time the program handles
    comes from RFC 3339 decoding (fixed offset), from [time.Parse] of a
    bare date (UTC) or from the wall clock; a Location whose offset changes
    over the year is not represented.  The instant is an unbounded
    integer: the range of Go's representation is not reached by dates a
    calendar can show. *)
Record Time : Type := mkTime {
  abs_ns : Z;
  zone : Z
}.

(** [time.Time{}] *)
Definition zero : Time := mkTime 0 0.

(** [t.Before(u)], [t.After(u)], [t.Equal(u)] compare instants. *)
Definition Before (t u : Time) : bool := abs_ns t <? abs_ns u.
Definition After (t u : Time) : bool := abs_ns u <? abs_ns t.
Definition Equal (t u : Time) : bool := abs_ns t =? abs_ns u.

Definition secondsPerDay : Z := 86400.
Definition nsPerSecond : Z := 1000000000.

(** Days from January 1, year 1 to the given day of the proleptic
    Gregorian calendar; linear in [d], as in [time.Date], so that a day
    outside its month overflows into the neighbouring months. *)
Definition daysSinceYear1 (y m d : Z) : Z :=
  let y' := if m <=? 2 then y - 1 else y in
  let era := y' / 400 in
  let yoe := y' - era * 400 in
  let mp := (m + 9) mod 12 in
  let doy := (153 * mp + 2) / 5 + d - 1 in
  let doe := yoe * 365 + yoe / 4 - yoe / 100 + doy in
  era * 146097 + doe - 306.

(** Year, month and day of the [n]-th day after January 1, year 1. *)
Definition civil (n : Z) : Z * Z * Z :=
  let z := n + 306 in
  let era := z / 146097 in
  let doe := z - era * 146097 in
  let yoe := (doe - doe / 1460 + doe / 36524 - doe / 146096) / 365 in
  let doy := doe - (365 * yoe + yoe / 4 - yoe / 100) in
  let mp := (5 * doy + 2) / 153 in
  let d := doy - (153 * mp + 2) / 5 + 1 in
  let m := if mp <? 10 then mp + 3 else mp - 9 in
  let y := yoe + era * 400 + (if m <=? 2 then 1 else 0) in
  (y, m, d).

(** Seconds since the zero instant, read on the local clock of [t]. *)
Definition localSeconds (t : Time) : Z := abs_ns t / nsPerSecond + zone t.

(** [t.Date()] *)
Definition date (t : Time) : Z * Z * Z := civil (localSeconds t / secondsPerDay).

(** [t.Clock()] as seconds into the local day, and [t.Nanosecond()]. *)
Definition secondOfDay (t : Time) : Z := localSeconds t mod secondsPerDay.
Definition Nanosecond (t : Time) : Z := abs_ns t mod nsPerSecond.

(** [time.Date(year, month, day, 0, 0, sec, nsec, loc)]: the month is
    normalised into the year, the other fields add up. *)
Definition Date (year month day sec nsec : Z) (loc : Z) : Time :=
  let m := month - 1 in
  let year := year + m / 12 in
  let month := m mod 12 + 1 in
  let days := daysSinceYear1 year month day in
  mkTime ((days * secondsPerDay + sec - loc) * nsPerSecond + nsec) loc.

(** [t.AddDate(years, months, days)] *)
Definition AddDate (t : Time) (years months days : Z) : Time :=
  let '(y, m, d) := date t in
  Date (y + years) (m + months) (d + days) (secondOfDay t) (Nanosecond t) (zone t).

(** [appendInt]: sign, zero padding up to [width] digits, digits. *)
Definition appendInt (x : Z) (width : nat) : string :=
  let digits := pretty (Z.to_N (Z.abs x)) in
  let pad := String.concat "" (replicate (width - String.length digits)%nat "0"%string) in
  ((if (x <? 0)%Z then "-" else "") +:+ pad +:+ digits)%string.

(** [t.Format("2006-01-02")] *)
Definition Format_date (t : Time) : string :=
  let '(y, m, d) := date t in
  (appendInt y 4 +:+ "-" +:+ appendInt m 2 +:+ "-" +:+ appendInt d 2)%string.

Definition isLeap (year : Z) : bool :=
  (year mod 4 =? 0) && (negb (year mod 100 =? 0) || (year mod 400 =? 0)).

Definition daysIn (m year : Z) : Z :=
  if m =? 2 then (if isLeap year then 29 else 28)
  else if (m =? 4) || (m =? 6) || (m =? 9) || (m =? 11) then 30
  else 31.

Definition isDigit (a : ascii) : bool :=
  let n := Z.of_nat (nat_of_ascii a) in (48 <=? n) && (n <=? 57).

Definition digitVal (a : ascii) : Z := Z.of_nat (nat_of_ascii a) - 48.

(** [time.Parse("2006-01-02", value)]: four digits, a dash, two digits, a
    dash, two digits and nothing else; the month must be in 1..12 and
    the day must exist in that month.  [None] stands for the error. *)
Definition Parse_date (value : string) : option Time :=
  match value with
  | String y1 (String y2 (String y3 (String y4 (String s1
      (String m1 (String m2 (String s2 (String d1 (String d2 EmptyString))))))))) =>
      if forallb isDigit [y1; y2; y3; y4; m1; m2; d1; d2]
         && bool_decide (s1 = "-"%char) && bool_decide (s2 = "-"%char)
      then
        let year := digitVal y1 * 1000 + digitVal y2 * 100 + digitVal y3 * 10 + digitVal y4 in
        let month := digitVal m1 * 10 + digitVal m2 in
        let day := digitVal d1 * 10 + digitVal d2 in
        if (1 <=? month) && (month <=? 12) && (1 <=? day) && (day <=? daysIn month year)
        then Some (Date year month day 0 0 0)
        else None
      else None
  | _ => None
  end.

(** A check that [civil] inverts [daysSinceYear1] at day [n] and yields a
    month and a day of the month there, and a bounded search for a day
    where a check fails. *)
Definition civil_ok (n : Z) : bool :=
  let '(y, m, d) := civil n in
  (daysSinceYear1 y m d =? n) && (1 <=? m) && (m <=? 12) && (1 <=? d) && (d <=? 31).

Fixpoint all_from (fuel : nat) (z : Z) (P : Z -> bool) : bool :=
  match fuel with
  | O => true
  | S f => P z && all_from f (z + 1) P
  end.

End time.

(** ** Package [services/helloasso] *)

Module helloasso.

(** [type Payment struct] *)
Record Payment : Type := mkPayment {
  OrderFormSlug : string;
  OrderDate : time.Time;
  PayerEmail : string;
  PayerFirstName : string;
  PayerLastName : string
}.

(** The zero value [Payment{}]. *)
Definition zeroPayment : Payment := mkPayment "" time.zero "" "" "".

End helloasso.

(** ** Package [services/brevo] *)

Module brevo.

(** [type EmailData struct] *)
Record EmailData : Type := mkEmailData {
  SenderName : string;
  SenderEmail : string;
  ToEmail : string;
  ToName : string;
  Subject : string;
  HtmlContent : string;
  TextContent : string
}.

End brevo.

(** ** Package [services/baserow] *)

Module baserow.

(** [type Member struct].

    Modelled from the spec: the fields [AlternativeEmail1],
    [AlternativeEmail2] and [Country].  [main.go] reads them, the
    declaration of [Member] at hand does not list them; the README names
    them as Baserow columns and the specification's member record has
    "up to two alternate emails" and a "country". *)
Record Member : Type := mkMember {
  Id : Z;
  Surname : string;
  FirstName : string;
  Email : string;
  AlternativeEmail1 : string;
  AlternativeEmail2 : string;
  ActiveMembership : bool;
  LastPaymentDate : time.Time;
  LastContributionEmailDate : time.Time;
  NumberContributionsEmail : Z;
  MembershipType : Z;
  PreferredLanguages : list Z;
  Country : string
}.

(** Assignments to the four fields the program writes, on Go's by-value
    copy of the struct. *)
Definition set_ActiveMembership (v : bool) (m : Member) : Member :=
  mkMember (Id m) (Surname m) (FirstName m) (Email m) (AlternativeEmail1 m)
    (AlternativeEmail2 m) v (LastPaymentDate m) (LastContributionEmailDate m)
    (NumberContributionsEmail m) (MembershipType m) (PreferredLanguages m) (Country m).

Definition set_LastPaymentDate (v : time.Time) (m : Member) : Member :=
  mkMember (Id m) (Surname m) (FirstName m) (Email m) (AlternativeEmail1 m)
    (AlternativeEmail2 m) (ActiveMembership m) v (LastContributionEmailDate m)
    (NumberContributionsEmail m) (MembershipType m) (PreferredLanguages m) (Country m).

Definition set_LastContributionEmailDate (v : time.Time) (m : Member) : Member :=
  mkMember (Id m) (Surname m) (FirstName m) (Email m) (AlternativeEmail1 m)
    (AlternativeEmail2 m) (ActiveMembership m) (LastPaymentDate m) v
    (NumberContributionsEmail m) (MembershipType m) (PreferredLanguages m) (Country m).

Definition set_NumberContributionsEmail (v : Z) (m : Member) : Member :=
  mkMember (Id m) (Surname m) (FirstName m) (Email m) (AlternativeEmail1 m)
    (AlternativeEmail2 m) (ActiveMembership m) (LastPaymentDate m)
    (LastContributionEmailDate m) v (MembershipType m) (PreferredLanguages m) (Country m).

Section Rows.

(** Go's [float64] and the conversion [int(f)].  The conversion
    truncates; what it yields for a value outside [int] depends on the
    processor, so both are left open. *)
Context {float64 : Type} (int_of_float64 : float64 -> Z).

(** What [encoding/json] stores into an [interface{}]: [nil], [bool],
    [float64], [string], [[]interface{}] and [map[string]interface{}]. *)
Inductive JSON : Type :=
| JNull
| JBool (b : bool)
| JNumber (f : float64)
| JString (s : string)
| JArray (items : list JSON)
| JObject (fields : gmap string JSON).

(** A decoded row, [map[string]interface{}]. *)
Local Abbreviation Row := (gmap string JSON).

Definition getStringValue (data : Row) (key : string) : string :=
  match data !! key with
  | Some (JString val) => val
  | _ => ""
  end.

Definition getSelectId (data : Row) (key : string) : Z :=
  match data !! key with
  | Some (JObject val) =>
      match val !! "id" with
      | Some (JNumber value) => int_of_float64 value
      | _ => 0
      end
  | _ => 0
  end.

Definition getBoolValue (data : Row) (key : string) : bool :=
  match data !! key with
  | Some (JBool val) => val
  | _ => false
  end.

Definition getIntValue (data : Row) (key : string) : Z :=
  match data !! key with
  | Some (JNumber val) => int_of_float64 val
  | _ => 0
  end.

Definition getMultiSelectIds (data : Row) (key : string) : list Z :=
  match data !! key with
  | Some (JArray val) =>
      foldl (fun ids item =>
               match item with
               | JObject itemMap =>
                   match itemMap !! "id" with
                   | Some (JNumber id) => ids ++ [int_of_float64 id]
                   | _ => ids
                   end
               | _ => ids
               end) [] val
  | _ => []
  end.

(** The two date columns: a non-empty string that parses as a date
    replaces the zero time the member starts with. *)
Definition getDateValue (data : Row) (key : string) : time.Time :=
  match data !! key with
  | Some (JString dateStr) =>
      if bool_decide (dateStr <> "") then
        match time.Parse_date dateStr with
        | Some date => date
        | None => time.zero
        end
      else time.zero
  | _ => time.zero
  end.

(** The body of the loop over [baserowResp.Results] in [GetMembers].
    The composite literal leaves the fields it does not list at their
    zero value. *)
Definition memberOfRow (result : Row) : Member :=
  {| Id := getIntValue result "Id";
     Surname := getStringValue result "Surname";
     FirstName := getStringValue result "First name";
     Email := getStringValue result "E-mail";
     AlternativeEmail1 := "";
     AlternativeEmail2 := "";
     ActiveMembership := getBoolValue result "Active MemberShip";
     LastPaymentDate := getDateValue result "Last Payment Date";
     LastContributionEmailDate := getDateValue result "Last Contribution Email Date";
     NumberContributionsEmail := getIntValue result "Number of Contributions Email";
     MembershipType := getSelectId result "Membership type";
     PreferredLanguages := getMultiSelectIds result "Preferred languages";
     Country := "" |}.

(** One page of [GetMembers]: [members = append(members, member)] for
    each row. *)
Definition appendRows (members : list Member) (results : list Row) : list Member :=
  foldl (fun members result => members ++ [memberOfRow result]) members results.

End Rows.

Arguments JSON : clear implicits.

End baserow.


(** ** The outside world: wall clock, Brevo and Baserow *)

Module world.

(** Go's text primitives used by [toCamelCase]: [strings.Fields],
    [[]rune(s)], [string(runes)], [unicode.ToUpper], [unicode.ToLower].
    They depend on the Unicode tables of the Go release. *)
Record GoText : Type := mkGoText {
  Fields : string -> list string;
  runes : string -> list Z;
  string_of_runes : list Z -> string;
  ToUpper : Z -> Z;
  ToLower : Z -> Z
}.

(** A remote call made by the run, with the [error] it returned ([None] for
    [nil]). *)
Inductive Event : Type :=
| EvSendEmail (data : brevo.EmailData) (err : option string)
| EvUpdateMember (member : baserow.Member) (err : option string).

(** What a run consumes and leaves behind: the number of clock readings
    taken and the remote calls made so far, oldest first. *)
Record World : Type := mkWorld {
  ticks : nat;
  trace : list Event
}.

(** What the run does not decide itself: what the [n]-th reading of the
    wall clock shows, and what the two services answer to a call made
    after [n] earlier calls. *)
Record Env : Type := mkEnv {
  clock : nat -> time.Time;
  brevo_reply : nat -> brevo.EmailData -> option string;
  baserow_reply : nat -> baserow.Member -> option string;
  text : GoText
}.

Definition M (A : Type) : Type := World -> A * World.

Definition ret {A} (a : A) : M A := fun w => (a, w).

Definition bind {A B} (c : M A) (k : A -> M B) : M B :=
  fun w => let '(a, w') := c w in k a w'.

(** [time.Now()] *)
Definition Now (env : Env) : M time.Time :=
  fun w => (clock env (ticks w), mkWorld (S (ticks w)) (trace w)).

(** [brevo.SendEmail(data)] *)
Definition SendEmail (env : Env) (data : brevo.EmailData) : M (option string) :=
  fun w =>
    let err := brevo_reply env (length (trace w)) data in
    (err, mkWorld (ticks w) (trace w ++ [EvSendEmail data err])).

(** [baserow.UpdateMember(member)] *)
Definition UpdateMember (env : Env) (member : baserow.Member) : M (option string) :=
  fun w =>
    let err := baserow_reply env (length (trace w)) member in
    (err, mkWorld (ticks w) (trace w ++ [EvUpdateMember member err])).

End world.

Notation "'let*' x ':=' c1 'in' c2" := (world.bind c1 (fun x => c2))
  (at level 10, x name, c1 at level 99, c2 at level 200).
Notation "c1 ;; c2" := (world.bind c1 (fun _ => c2))
  (at level 100, c2 at level 200, right associativity).

(** ** Package [github.com/samber/lo], the functions [main.go] calls *)

Module lo.

Definition Filter {T} (collection : list T) (predicate : T -> bool) : list T :=
  List.filter predicate collection.

(** [result[key] = append(result[key], item)] for each item in turn. *)
Definition GroupBy {T K} `{Countable K} (collection : list T) (iteratee : T -> K)
  : gmap K (list T) :=
  foldl (fun result item =>
           let key := iteratee item in
           <[key := default [] (result !! key) ++ [item]]> result)
        ∅ collection.

(** The items of [collection] that [GroupBy] files under [k], in their
    order: what [GroupBy collection iteratee] holds at [k] when this list is
    not empty. *)
Definition group_of {T K} `{Countable K} (collection : list T) (iteratee : T -> K) (k : K)
  : list T :=
  Filter collection (fun item => bool_decide (iteratee item = k)).

Definition MapValues {K V R} `{Countable K} (m : gmap K V) (iteratee : V -> K -> R)
  : gmap K R :=
  map_imap (fun k v => Some (iteratee v k)) m.

(** The values of a map, in the canonical order of [map_to_list]; Go
    leaves the order open. *)
Definition Values {K V} `{Countable K} (m : gmap K V) : list V :=
  (map_to_list m).*2.

(** [max = collection[0]], then [if comparison(item, max) { max = item }]
    for the items that follow; the zero value on an empty collection. *)
Definition MaxBy {T} (zero : T) (collection : list T) (comparison : T -> T -> bool) : T :=
  match collection with
  | [] => zero
  | first :: rest =>
      foldl (fun max item => if comparison item max then item else max) first rest
  end.

Definition KeyBy {K V} `{Countable K} (collection : list V) (iteratee : V -> K)
  : gmap K V :=
  foldl (fun result v => <[iteratee v := v]> result) ∅ collection.

(** The callback's [(R, bool)] result is an [option R]. *)
Definition FilterMap {T R} (collection : list T) (callback : T -> option R) : list R :=
  omap callback collection.

Definition Reduce {T R} (collection : list T) (accumulator : R -> T -> R) (initial : R) : R :=
  foldl accumulator initial collection.

Fixpoint ForEach {T} (collection : list T) (iteratee : T -> world.M unit) : world.M unit :=
  match collection with
  | [] => world.ret tt
  | item :: rest => iteratee item ;; ForEach rest iteratee
  end.

End lo.

(** ** Package [main] *)

Module main.

Import helloasso brevo baserow.

Section ToCamelCase.

Context (U : world.GoText).

(** [toCamelCase]: every whitespace-separated word gets its first rune in
    upper case and the others in lower case; the words are joined by one
    space.  A word returned by [strings.Fields] has at least one rune. *)
Definition toCamelCase (s : string) : string :=
  if bool_decide (s = "") then s
  else
    let words := world.Fields U s in
    let words :=
      map (fun word =>
             if (0 <? String.length word)%nat then
               match world.runes U word with
               | r0 :: rest =>
                   world.string_of_runes U (world.ToUpper U r0 :: map (world.ToLower U) rest)
               | [] => word
               end
             else word) words in
    String.concat " " words.

End ToCamelCase.

Definition IndividualTypeId : Z := 2521.
Definition OrganizationTypeId : Z := 2520.

Definition EnglishId : Z := 2590.
Definition FrenchId : Z := 2591.
Definition SpanishId : Z := 2592.

(** [type MemberPaymentPair struct] *)
Record MemberPaymentPair : Type := mkPair {
  Member : baserow.Member;
  Payment : helloasso.Payment
}.

(** *** Payment reducer *)

Definition filteredPayments (payments : list helloasso.Payment) : list helloasso.Payment :=
  lo.Filter payments (fun payment =>
    String.eqb (OrderFormSlug payment) "cotisation-annuelle"
    || String.eqb (OrderFormSlug payment) "annual-membership-fee").

Definition uniquePayments (filteredPayments : list helloasso.Payment) : list helloasso.Payment :=
  lo.Values
    (lo.MapValues
       (lo.GroupBy filteredPayments (fun payment => PayerEmail payment))
       (fun payments (_ : string) =>
          lo.MaxBy zeroPayment payments
            (fun p1 p2 => time.After (OrderDate p1) (OrderDate p2)))).

(** The slices [main] may hold in [uniquePayments]: Go iterates over a map
    in no particular order. *)
Definition uniquePayments_of (payments ups : list helloasso.Payment) : Prop :=
  ups ≡ₚ uniquePayments (filteredPayments payments).

(** *** Reconciler *)

Definition membersByEmail (members : list baserow.Member) : gmap string baserow.Member :=
  lo.Reduce members
    (fun acc member =>
       let acc := <[Email member := member]> acc in
       let acc :=
         if negb (String.eqb (AlternativeEmail1 member) "")
         then <[AlternativeEmail1 member := member]> acc else acc in
       let acc :=
         if negb (String.eqb (AlternativeEmail2 member) "")
         then <[AlternativeEmail2 member := member]> acc else acc in
       acc)
    ∅.

(** Whether the body of the [lo.Reduce] above stores [member] at the key
    [email]: the primary email always, an alternate when it is not empty. *)
Definition indexedUnder (member : baserow.Member) (email : string) : bool :=
  String.eqb email (Email member)
  || (negb (String.eqb (AlternativeEmail1 member) "")
      && String.eqb email (AlternativeEmail1 member))
  || (negb (String.eqb (AlternativeEmail2 member) "")
      && String.eqb email (AlternativeEmail2 member)).

Definition paymentsByEmail (uniquePayments : list helloasso.Payment) : gmap string helloasso.Payment :=
  lo.KeyBy uniquePayments (fun payment => PayerEmail payment).

Definition membersWithPayment (uniquePayments : list helloasso.Payment)
    (membersByEmail : gmap string baserow.Member) : list MemberPaymentPair :=
  lo.FilterMap uniquePayments (fun payment =>
    match membersByEmail !! PayerEmail payment with
    | None => None
    | Some member => Some {| Member := member; Payment := payment |}
    end).

(** The predicate of the first [lo.Filter] over [membersWithPayment]. *)
Definition paymentNeeded (oneYearAgo : time.Time) (pair : MemberPaymentPair) : bool :=
  time.Before (OrderDate (Payment pair)) oneYearAgo.

(** The predicate of the second [lo.Filter] over [membersWithPayment]. *)
Definition statusUpdate (oneYearAgo : time.Time) (pair : MemberPaymentPair) : bool :=
  negb (time.Before (OrderDate (Payment pair)) oneYearAgo)
  && (Bool.eqb (ActiveMembership (Member pair)) false
      || negb (String.eqb (time.Format_date (LastPaymentDate (Member pair)))
                          (time.Format_date (OrderDate (Payment pair))))).

Definition membersToUpdatePaymentNeeded (oneYearAgo : time.Time)
    (membersWithPayment : list MemberPaymentPair) : list MemberPaymentPair :=
  lo.Filter membersWithPayment (paymentNeeded oneYearAgo).

Definition membersToUpdateStatusUpdate (oneYearAgo : time.Time)
    (membersWithPayment : list MemberPaymentPair) : list MemberPaymentPair :=
  lo.Filter membersWithPayment (statusUpdate oneYearAgo).

(** *** Notifier *)

Definition dquote : string := String (ascii_of_nat 34) EmptyString.
Definition newline : string := String (ascii_of_nat 10) EmptyString.

(** The texts of [sendEmailAndUpdate]; [firstName] stands for
    [toCamelCase(member.FirstName)]. *)
Definition subjectFr : string :=
  "Pr√™t pour une nouvelle ann√©e avec Boavizta ? Il est temps de renouveler votre adh√©sion".

Definition htmlContentFr (firstName contributionLink : string) : string :=
  "<html><body>" +:+ "<p>Cher(e) " +:+ firstName +:+ ",</p>"
  +:+ "<p>Alors que votre adh√©sion √† Boavizta touche √† sa fin, nous tenons √† vous remercier d'avoir √©t√© avec nous cette ann√©e !</p>"
  +:+ "<p>Boavizta existe gr√¢ce aux incroyables contributions de ses membres, des personnes comme vous qui nous aident √† cr√©er et partager des communs pour promouvoir des pratiques num√©riques respectueuses des limites plan√©taires. Votre implication fait vraiment la diff√©rence.</p>"
  +:+ "<p>Nous sommes enthousiastes √† l'id√©e de ce qui nous attend en 2025-2026 et nous serons heureux de vous voir rester impliqu√©(e) dans notre communaut√©.</p>"
  +:+ "<p>üëâ Pour renouveler votre adh√©sion, <a href=" +:+ dquote +:+ contributionLink +:+ dquote
  +:+ ">cliquez simplement ici</a>.</p>" +:+ "<p>Merci encore de faire partie de Boavizta !</p>"
  +:+ "<p>Cordialement,<br>L'√©quipe Boavizta</p>" +:+ "</body></html>".

Definition textContentFr (firstName contributionLink : string) : string :=
  "Cher(e) " +:+ firstName +:+ "," +:+ newline +:+ newline
  +:+ "Alors que votre adh√©sion √† Boavizta touche √† sa fin, nous tenons √† vous remercier d'avoir √©t√© avec nous cette ann√©e !"
  +:+ newline +:+ newline
  +:+ "Boavizta existe gr√¢ce aux incroyables contributions de ses membres, des personnes comme vous qui nous aident √† cr√©er et partager des communs pour promouvoir des pratiques num√©riques respectueuses des limites plan√©taires. Votre implication fait vraiment la diff√©rence."
  +:+ newline +:+ newline
  +:+ "Nous sommes enthousiastes √† l'id√©e de ce qui nous attend en 2025-2026 et nous serons heureux de vous voir rester impliqu√©(e) dans notre communaut√©."
  +:+ newline +:+ newline +:+ "üëâ Pour renouveler votre adh√©sion, cliquez simplement ici : "
  +:+ contributionLink +:+ newline +:+ newline +:+ "Merci encore de faire partie de Boavizta !"
  +:+ newline +:+ newline +:+ "Cordialement," +:+ newline +:+ "L'√©quipe Boavizta".

Definition subjectEn : string :=
  "Ready for another year with Boavizta? It's time to renew your membership".

Definition htmlContentEn (firstName contributionLink : string) : string :=
  "<html><body>" +:+ "<p>Dear " +:+ firstName +:+ ",</p>"
  +:+ "<p>As your membership with Boavizta comes to an end, we want to say thank you for being with us this past year!</p>"
  +:+ "<p>Boavizta exists thanks to the incredible contributions of its members, people like you who help us create and share commons to promote digital practices that respect planetary boundaries. Your involvement really makes a difference.</p>"
  +:+ "<p>We're excited about what's coming in 2025‚Äì2026 and we will be happy to see you stay involved in our community.</p>"
  +:+ "<p>üëâ To renew your membership, simply <a href=" +:+ dquote +:+ contributionLink +:+ dquote
  +:+ ">click here</a>.</p>" +:+ "<p>Thanks again for being part of Boavizta!</p>"
  +:+ "<p>Warm regards,<br>Boavizta Team</p>" +:+ "</body></html>".

Definition textContentEn (firstName contributionLink : string) : string :=
  "Dear " +:+ firstName +:+ "," +:+ newline +:+ newline
  +:+ "As your membership with Boavizta comes to an end, we want to say thank you for being with us this past year!"
  +:+ newline +:+ newline
  +:+ "Boavizta exists thanks to the incredible contributions of its members, people like you who help us create and share commons to promote digital practices that respect planetary boundaries. Your involvement really makes a difference."
  +:+ newline +:+ newline
  +:+ "We're excited about what's coming in 2025‚Äì2026 and we will be happy to see you stay involved in our community."
  +:+ newline +:+ newline +:+ "üëâ To renew your membership, simply click here: "
  +:+ contributionLink +:+ newline +:+ newline +:+ "Thanks again for being part of Boavizta!"
  +:+ newline +:+ newline +:+ "Warm regards," +:+ newline +:+ "Boavizta Team".

(** The language loop of [sendEmailAndUpdate] and the test on the country
    that follows it. *)
Definition isFrench (member : baserow.Member) : bool :=
  let isFrench := existsb (fun langId => langId =? FrenchId) (PreferredLanguages member) in
  if negb isFrench && String.eqb (Country member) "France" then true else isFrench.

Definition contributionLink (isFrench : bool) : string :=
  if isFrench
  then "https://www.helloasso.com/associations/boavizta/adhesions/cotisation-annuelle"
  else "https://www.helloasso.com/associations/boavizta/adhesions/annual-membership-fee".

(** The [brevo.EmailData] that [sendEmailAndUpdate] builds. *)
Definition emailData (U : world.GoText) (member : baserow.Member) : EmailData :=
  let isFrench := isFrench member in
  let contributionLink := contributionLink isFrench in
  let firstName := toCamelCase U (FirstName member) in
  let '(subject, htmlContent, textContent) :=
    if isFrench
    then (subjectFr, htmlContentFr firstName contributionLink,
          textContentFr firstName contributionLink)
    else (subjectEn, htmlContentEn firstName contributionLink,
          textContentEn firstName contributionLink) in
  {| SenderName := "Boavizta";
     SenderEmail := "no-reply@boavizta.org";
     ToEmail := Email member;
     ToName := toCamelCase U (FirstName member) +:+ " " +:+ Surname member;
     Subject := subject;
     HtmlContent := htmlContent;
     TextContent := textContent |}.

Section Run.

Context (env : world.Env).

Definition sendEmailAndUpdate (pair : MemberPaymentPair) : world.M unit :=
  let member := Member pair in
  let payment := Payment pair in
  let member := set_ActiveMembership false member in
  let member := set_LastPaymentDate (OrderDate payment) member in
  let emailData := emailData (world.text env) member in
  let* now := world.Now env in
  if time.Before (LastContributionEmailDate member) (time.AddDate now 0 0 (-14)) then
    let* err := world.SendEmail env emailData in
    let* member :=
      match err with
      | Some _ => world.ret member
      | None =>
          let* now := world.Now env in
          let member := set_LastContributionEmailDate now member in
          world.ret (set_NumberContributionsEmail
                       (wrap_int (NumberContributionsEmail member + 1)) member)
      end in
    let* err := world.UpdateMember env member in
    world.ret tt
  else world.ret tt.

Definition updateValidMembers (pair : MemberPaymentPair) : world.M unit :=
  let member := Member pair in
  let payment := Payment pair in
  let member := set_ActiveMembership true member in
  let member := set_LastPaymentDate (OrderDate payment) member in
  let member := set_NumberContributionsEmail 0 member in
  let* err := world.UpdateMember env member in
  world.ret tt.

(** [main] from the point where both fetches have succeeded and
    [uniquePayments] has been laid out as a slice.  The log lines and
    [generateStats], which only logs counts, leave no trace here. *)
Definition reconcile (uniquePayments : list helloasso.Payment)
    (members : list baserow.Member) : world.M unit :=
  let membersByEmail := membersByEmail members in
  let membersWithPayment := membersWithPayment uniquePayments membersByEmail in
  let* now := world.Now env in
  let oneYearAgo := time.AddDate now (-1) 0 0 in
  let membersToUpdatePaymentNeeded :=
    membersToUpdatePaymentNeeded oneYearAgo membersWithPayment in
  let membersToUpdateStatusUpdate :=
    membersToUpdateStatusUpdate oneYearAgo membersWithPayment in
  lo.ForEach membersToUpdatePaymentNeeded sendEmailAndUpdate ;;
  lo.ForEach membersToUpdateStatusUpdate updateValidMembers.

(** A run of [main] on the fetched payments and members. *)
Definition runs (payments : list helloasso.Payment) (members : list baserow.Member)
    (w w' : world.World) : Prop :=
  exists ups, uniquePayments_of payments ups /\ reconcile ups members w = (tt, w').

End Run.

End main.

(** ** Sample data

    Concrete payments, members and an environment on which the definitions
    above are evaluated. *)

Module sample.

Import helloasso baserow main.

(** Go's text primitives restricted to ASCII text. *)
Definition isSpace (a : ascii) : bool :=
  let n := nat_of_ascii a in
  (n =? 32)%nat || ((9 <=? n)%nat && (n <=? 13)%nat).

Fixpoint fieldsFrom (s : string) (word : string) : list string :=
  match s with
  | EmptyString => if bool_decide (word = "") then [] else [word]
  | String a s' =>
      if isSpace a
      then (if bool_decide (word = "") then fieldsFrom s' ""
            else word :: fieldsFrom s' "")
      else fieldsFrom s' (word +:+ String a EmptyString)
  end.

Definition asciiText : world.GoText :=
  {| world.Fields := fun s => fieldsFrom s "";
     world.runes := fun s => map (fun a => Z.of_nat (nat_of_ascii a)) (list_ascii_of_string s);
     world.string_of_runes :=
       fun rs => string_of_list_ascii (map (fun r => ascii_of_nat (Z.to_nat r)) rs);
     world.ToUpper := fun r => if (97 <=? r) && (r <=? 122) then r - 32 else r;
     world.ToLower := fun r => if (65 <=? r) && (r <=? 90) then r + 32 else r |}.

Definition day (s : string) : time.Time := default time.zero (time.Parse_date s).

(** A wall clock stuck at 30 October 2026, 00:00 UTC, and two services
    that accept every call. *)
Definition env : world.Env :=
  {| world.clock := fun _ => day "2026-10-30";
     world.brevo_reply := fun _ _ => None;
     world.baserow_reply := fun _ _ => None;
     world.text := asciiText |}.

Definition w0 : world.World := world.mkWorld 0 [].

(** Two payments of one payer on the same date, in the order they were
    fetched. *)
Definition tieA : helloasso.Payment :=
  mkPayment "cotisation-annuelle" (day "2024-01-10") "ada@example.org" "Ada" "First".
Definition tieB : helloasso.Payment :=
  mkPayment "cotisation-annuelle" (day "2024-01-10") "ada@example.org" "Ada" "Second".

Definition older : helloasso.Payment :=
  mkPayment "annual-membership-fee" (day "2023-01-10") "ada@example.org" "Ada" "Older".
Definition otherForm : helloasso.Payment :=
  mkPayment "don" (day "2026-01-10") "ada@example.org" "Ada" "Gift".
Definition recent : helloasso.Payment :=
  mkPayment "annual-membership-fee" (day "2026-05-10") "bob@example.org" "Bob" "Recent".

Definition payments : list helloasso.Payment := [older; tieA; otherForm; recent; tieB].

(** A member with two alternate emails, last reminded five days before the
    clock reading, and a later member registered under the same primary
    email. *)
Definition ada : baserow.Member :=
  mkMember 1 "LOVELACE" "ada" "ada@example.org" "ada@work.example" "ada@home.example"
    true (day "2024-01-10") (day "2026-10-25") 1 IndividualTypeId [EnglishId] "France".
Definition namesake : baserow.Member :=
  mkMember 2 "BYRON" "ada" "ada@example.org" "" ""
    false time.zero time.zero 0 IndividualTypeId [FrenchId] "".

(** A member that was never reminded. *)
Definition bob : baserow.Member :=
  mkMember 3 "MARLEY" "bob" "bob@example.org" "" ""
    true (day "2025-05-10") time.zero 0 IndividualTypeId [EnglishId; SpanishId] "Jamaica".

Definition adaPair : MemberPaymentPair := mkPair ada tieA.
Definition bobPair : MemberPaymentPair := mkPair bob older.

(** A decoded row whose columns are all of an unexpected type. *)
Definition mistyped : gmap string (JSON Z) :=
  <["Id" := JString "7"]>
    (<["E-mail" := JNumber 3]>
       (<["Active MemberShip" := JString "yes"]>
          (<["Last Contribution Email Date" := JString "25/10/2026"]>
             (<["Membership type" := JArray []]>
                (<["Preferred languages" := JObject ∅]> ∅))))).

End sample.

(** ** Dates as Baserow keeps them

    A date goes to Baserow as the text of [Format_date] and comes back
    through [Parse_date].  The checks below compare that text with explicit
    digits; each is run over the finitely many cases that occur. *)

Module dates.

(** [t.Year()] *)
Definition Year (t : time.Time) : Z := let '(y, _, _) := time.date t in y.

(** The start, read as UTC, of the day [t] shows on its own clock. *)
Definition dayStartUTC (t : time.Time) : time.Time :=
  time.mkTime
    (time.localSeconds t / time.secondsPerDay * time.secondsPerDay * time.nsPerSecond) 0.

(** The character of a decimal digit. *)
Definition digit (k : Z) : ascii := ascii_of_nat (Z.to_nat (48 + k)).

Definition digits2 (x : Z) : string :=
  String (digit (x / 10)) (String (digit (x mod 10)) EmptyString).

Definition digits4 (x : Z) : string :=
  String (digit (x / 1000))
    (String (digit (x / 100 mod 10))
       (String (digit (x / 10 mod 10)) (String (digit (x mod 10)) EmptyString))).

Definition appendInt4_ok (x : Z) : bool := String.eqb (time.appendInt x 4) (digits4 x).

Definition appendInt2_ok (x : Z) : bool := String.eqb (time.appendInt x 2) (digits2 x).

Definition digit_ok (k : Z) : bool :=
  time.isDigit (digit k) && (time.digitVal (digit k) =? k).

(** The day of the month of the [n]-th day exists in its month. *)
Definition civil_day_ok (n : Z) : bool :=
  let '(y, m, d) := time.civil n in d <=? time.daysIn m y.

End dates.

(** ** Reading the trace of a run *)

Module effects.

Import baserow.

(** The remote calls made between two worlds of a run. *)
Definition newEvents (w w' : world.World) : list world.Event :=
  drop (length (world.trace w)) (world.trace w').

(** Two member values that differ at most in the four fields the program
    writes: the activity flag, the two dates and the reminder count. *)
Definition sameIdentity (a b : Member) : Prop :=
  Id a = Id b /\ Surname a = Surname b /\ FirstName a = FirstName b
  /\ Email a = Email b /\ AlternativeEmail1 a = AlternativeEmail1 b
  /\ AlternativeEmail2 a = AlternativeEmail2 b
  /\ MembershipType a = MembershipType b
  /\ PreferredLanguages a = PreferredLanguages b /\ Country a = Country b.

(** What handling one pair in the reminder pass adds to the trace: nothing,
    or a send of the pair's message followed by a write of the pair's
    member, made after a guard that passed on some clock reading. *)
Definition reminderBlock (env : world.Env) (pair : main.MemberPaymentPair)
    (block : list world.Event) : Prop :=
  let prepared :=
    set_LastPaymentDate (helloasso.OrderDate (main.Payment pair))
      (set_ActiveMembership false (main.Member pair)) in
  block = []
  \/ exists err member err',
      block = [world.EvSendEmail (main.emailData (world.text env) prepared) err;
               world.EvUpdateMember member err']
      /\ ActiveMembership member = false
      /\ LastPaymentDate member = helloasso.OrderDate (main.Payment pair)
      /\ sameIdentity (main.Member pair) member
      /\ exists n, time.Before (LastContributionEmailDate (main.Member pair))
                     (time.AddDate (world.clock env n) 0 0 (-14)) = true.

End effects.

(** ** Statistics of a run *)

Module stats.

Import helloasso baserow main.

(** The four counts [generateStats] logs. *)
Record Counts : Type := mkCounts {
  membersWithoutPaymentEntry : nat;
  membersWithoutPaymentEntryIndividual : nat;
  membersWithoutPaymentEntryOrganization : nat;
  paymentEntryWithoutMember : nat
}.

Definition generateStats (members : list baserow.Member)
    (paymentsByEmail : gmap string helloasso.Payment)
    (uniquePayments : list helloasso.Payment)
    (membersByEmail : gmap string baserow.Member) : Counts :=
  let membersWithoutPaymentEntry :=
    lo.Filter members (fun member =>
      match paymentsByEmail !! Email member with
      | Some _ => false
      | None => true
      end) in
  let membersWithoutPaymentEntryIndividual :=
    lo.Filter membersWithoutPaymentEntry (fun member =>
      MembershipType member =? IndividualTypeId) in
  let membersWithoutPaymentEntryOrganization :=
    lo.Filter membersWithoutPaymentEntry (fun member =>
      MembershipType member =? OrganizationTypeId) in
  let paymentEntryWithoutMember :=
    lo.Filter uniquePayments (fun payment =>
      match membersByEmail !! PayerEmail payment with
      | Some _ => false
      | None => true
      end) in
  {| membersWithoutPaymentEntry := length membersWithoutPaymentEntry;
     membersWithoutPaymentEntryIndividual := length membersWithoutPaymentEntryIndividual;
     membersWithoutPaymentEntryOrganization := length membersWithoutPaymentEntryOrganization;
     paymentEntryWithoutMember := length paymentEntryWithoutMember |}.

End stats.

(** ** The network under the services *)

Module net.

(** What [encoding/json] is given to marshal. *)
Inductive Value : Type :=
| VBool (b : bool)
| VInt (z : Z)
| VString (s : string)
| VArray (items : list Value)
| VObject (fields : list (string * Value)).

(** The body of a request before it is encoded: nothing, the
    [url.Values] of a form, or a value to marshal as JSON. *)
Inductive Body : Type :=
| NoBody
| FormBody (values : list (string * string))
| JsonBody (v : Value).

Record Request : Type := mkRequest {
  Method : string;
  URL : string;
  Header : list (string * string);
  ReqBody : Body
}.

(** The outcome of [http.NewRequest] followed by [client.Do]: the error of
    [http.NewRequest], after which nothing is sent; the error of
    [client.Do]; or a response with its status code and the text read from
    its body. *)
Inductive Reply : Type :=
| Invalid (err : string)
| Failed (err : string)
| Replied (StatusCode : Z) (body : string).

(** The process environment and the remote side: what [os.Getenv] returns
    and what becomes of the request the process builds after [n] requests
    were sent. *)
Record Net : Type := mkNet {
  Getenv : string -> string;
  RoundTrip : nat -> Request -> Reply
}.

(** Building and sending a request, on the log of the requests sent so
    far: a request [http.NewRequest] refuses is not sent. *)
Definition Do (net : Net) (req : Request) (log : list Request) : Reply * list Request :=
  match RoundTrip net (length log) req with
  | Invalid err => (Invalid err, log)
  | reply => (reply, log ++ [req])
  end.

(** [fmt.Errorf("failed to ...: %s, status code: %d", body, status)] *)
Definition statusError (what body : string) (status : Z) : string :=
  what +:+ ": " +:+ body +:+ ", status code: " +:+ pretty status.

End net.

(** ** [services/baserow]: [GetMembers] and [UpdateMember] *)

Module baserow_api.

Import baserow net.

(** The request for one page of rows. *)
Definition rowsRequest (apiToken apiURL : string) : Request :=
  mkRequest "GET" apiURL [("Authorization", "Token " +:+ apiToken)] NoBody.

(** The address of the first page. *)
Definition firstURL (tableID : string) : string :=
  "https://baserow.boavizta.org/api/database/rows/table/" +:+ tableID
  +:+ "/?user_field_names=true".

Section Rows.

Context {float64 : Type} (int_of_float64 : float64 -> Z).

(** [type BaserowResponse struct] *)
Record BaserowResponse : Type := mkBaserowResponse {
  Count : Z;
  Next : string;
  Previous : JSON float64;
  Results : list (gmap string (JSON float64))
}.

(** What decoding the body of a response into a [BaserowResponse] gives:
    the error of [json.Decoder.Decode] or the value. *)
Context (decode : string -> string + BaserowResponse).

(** The loop [for apiURL != ""] of [GetMembers].  The remote side decides
    how long the chain of [next] links is; [fuel] bounds the number of
    pages followed and [None] says it ran out. *)
Fixpoint memberPages (fuel : nat) (net : Net) (apiToken apiURL : string)
    (members : list Member) (log : list Request)
  : option (string + list Member) * list Request :=
  if bool_decide (apiURL = "") then (Some (inr members), log)
  else
    match fuel with
    | O => (None, log)
    | S fuel =>
        match Do net (rowsRequest apiToken apiURL) log with
        | (Invalid err, log) | (Failed err, log) => (Some (inl err), log)
        | (Replied StatusCode body, log) =>
            if negb (StatusCode =? 200)
            then (Some (inl (statusError "failed to get members" body StatusCode)), log)
            else
              match decode body with
              | inl err => (Some (inl err), log)
              | inr baserowResp =>
                  let members := appendRows int_of_float64 members (Results baserowResp) in
                  memberPages fuel net apiToken (Next baserowResp) members log
              end
        end
    end.

Definition GetMembers (fuel : nat) (net : Net) (log : list Request)
  : option (string + list Member) * list Request :=
  let apiToken := Getenv net "BASEROW_API_TOKEN" in
  if bool_decide (apiToken = "") then
    (Some (inl "BASEROW_API_TOKEN environment variable must be set"), log)
  else
    let tableID := Getenv net "BASEROW_MEMBER_TABLE_ID" in
    if bool_decide (tableID = "") then
      (Some (inl "BASEROW_MEMBER_TABLE_ID environment variable must be set"), log)
    else memberPages fuel net apiToken (firstURL tableID) [] log.

(** A chain of pages as the remote side serves it from the address
    [apiURL] on, the first one in answer to request number [n]: each page
    is a 200 reply that decodes, and its [next] link is the address of the
    page after it. *)
Fixpoint served (net : Net) (apiToken : string) (n : nat) (apiURL : string)
    (pages : list BaserowResponse) : Prop :=
  match pages with
  | [] => True
  | page :: rest =>
      apiURL <> ""
      /\ (exists body,
            RoundTrip net n (rowsRequest apiToken apiURL) = Replied 200 body
            /\ decode body = inr page)
      /\ served net apiToken (S n) (Next page) rest
  end.

(** The address reached after the pages of a chain. *)
Definition addressAfter (apiURL : string) (pages : list BaserowResponse) : string :=
  default apiURL (last (Next <$> pages)).

(** The requests made for the pages of a chain. *)
Fixpoint rowsRequests (apiToken apiURL : string) (pages : list BaserowResponse)
  : list Request :=
  match pages with
  | [] => []
  | page :: rest => rowsRequest apiToken apiURL :: rowsRequests apiToken (Next page) rest
  end.

End Rows.

(** The [payload] of [UpdateMember]; [json.Marshal] writes the keys of a
    map in sorted order. *)
Definition payload (member : Member) : Value :=
  VObject
    [("Active MemberShip", VBool (ActiveMembership member));
     ("Last Contribution Email Date",
        VString (time.Format_date (LastContributionEmailDate member)));
     ("Last Payment Date", VString (time.Format_date (LastPaymentDate member)));
     ("Number of Contributions Email", VInt (NumberContributionsEmail member))].

(** A decoded row that holds, in its text and boolean columns, what
    [UpdateMember] sends for [member]. *)
Definition stores {float64 : Type} (row : gmap string (JSON float64)) (member : Member)
  : Prop :=
  forall fields, payload member = VObject fields ->
  forall key v, (key, v) ∈ fields ->
    match v with
    | VString s => row !! key = Some (JString s)
    | VBool b => row !! key = Some (JBool b)
    | _ => True
    end.

(** The request [UpdateMember] builds. *)
Definition updateRequest (apiToken tableID : string) (member : Member) : Request :=
  let apiURL :=
    "https://baserow.boavizta.org/api/database/rows/table/" +:+ tableID
    +:+ "/" +:+ pretty (Id member) +:+ "/?user_field_names=true" in
  mkRequest "PATCH" apiURL
    [("Authorization", "Token " +:+ apiToken); ("Content-Type", "application/json")]
    (JsonBody (payload member)).

Definition UpdateMember (net : Net) (member : Member) (log : list Request)
  : option string * list Request :=
  let apiToken := Getenv net "BASEROW_API_TOKEN" in
  if bool_decide (apiToken = "") then
    (Some "BASEROW_API_TOKEN environment variable must be set", log)
  else
    let tableID := Getenv net "BASEROW_MEMBER_TABLE_ID" in
    if bool_decide (tableID = "") then
      (Some "BASEROW_MEMBER_TABLE_ID environment variable must be set", log)
    else
      match Do net (updateRequest apiToken tableID member) log with
      | (Invalid err, log) | (Failed err, log) => (Some err, log)
      | (Replied StatusCode body, log) =>
          if negb (StatusCode =? 200)
          then (Some (statusError "failed to update member" body StatusCode), log)
          else (None, log)
      end.

End baserow_api.

(** ** [services/helloasso]: [getOAuthToken] and [GetPayments] *)

Module helloasso_api.

Import helloasso net.

(** [type TokenResponse struct] *)
Record TokenResponse : Type := mkTokenResponse {
  AccessToken : string;
  TokenType : string;
  ExpiresIn : Z
}.

(** The anonymous structs of [type PaymentResponse struct]. *)
Record Order : Type := mkOrder {
  Order_ID : Z;
  Order_Date : time.Time;
  FormSlug : string;
  FormType : string
}.

Record Payer : Type := mkPayer {
  Email : string;
  Country : string;
  FirstName : string;
  LastName : string
}.

Record Item : Type := mkItem {
  Item_ID : Z;
  Item_Amount : Z;
  Item_Type : string;
  Item_State : string
}.

Record Datum : Type := mkDatum {
  order : Order;
  payer : Payer;
  Items : list Item;
  ID : Z;
  Amount : Z;
  Date : time.Time;
  State : string
}.

Record Pagination : Type := mkPagination {
  PageSize : Z;
  TotalCount : Z;
  PageIndex : Z;
  TotalPages : Z;
  ContinuationToken : string
}.

Record PaymentResponse : Type := mkPaymentResponse {
  Data : list Datum;
  pagination : Pagination
}.

(** The request of [getOAuthToken]; [url.Values.Encode] writes the keys in
    sorted order. *)
Definition tokenRequest (clientID clientSecret : string) : Request :=
  mkRequest "POST" "https://api.helloasso.com/oauth2/token"
    [("Content-Type", "application/x-www-form-urlencoded")]
    (FormBody [("client_id", clientID); ("client_secret", clientSecret);
               ("grant_type", "client_credentials")]).

Definition pageURL (orgSlug fromDate : string) (pageIndex : Z) : string :=
  "https://api.helloasso.com/v5/organizations/" +:+ orgSlug
  +:+ "/payments?pageSize=100&from=" +:+ fromDate
  +:+ "&pageIndex=" +:+ pretty pageIndex
  +:+ "&states=Authorized&states=Registered".

(** The request for one page of payments. *)
Definition pageRequest (token orgSlug fromDate : string) (pageIndex : Z) : Request :=
  mkRequest "GET" (pageURL orgSlug fromDate pageIndex)
    [("Authorization", "Bearer " +:+ token)] NoBody.

(** The [Payment] kept of an entry of a page. *)
Definition paymentOf (item : Datum) : Payment :=
  {| OrderFormSlug := FormSlug (order item);
     OrderDate := Order_Date (order item);
     PayerEmail := Email (payer item);
     PayerFirstName := FirstName (payer item);
     PayerLastName := LastName (payer item) |}.

(** [pageIndex] after [k] times [pageIndex++], from 1. *)
Definition pageIndexAfter (k : nat) : Z :=
  Nat.iter k (fun pageIndex => wrap_int (pageIndex + 1)) 1.

Section Decoders.

(** What decoding the body of a response gives, for the two struct types. *)
Context (decodeToken : string -> string + TokenResponse).
Context (decodePayments : string -> string + PaymentResponse).

Definition getOAuthToken (net : Net) (log : list Request)
  : (string + string) * list Request :=
  let clientID := Getenv net "HELLOASSO_API_ID" in
  let clientSecret := Getenv net "HELLOASSO_API_SECRET" in
  if bool_decide (clientID = "") || bool_decide (clientSecret = "") then
    (inl "HELLOASSO_API_ID and HELLOASSO_API_SECRET environment variables must be set", log)
  else
    match Do net (tokenRequest clientID clientSecret) log with
    | (Invalid err, log) | (Failed err, log) => (inl err, log)
    | (Replied StatusCode body, log) =>
        if negb (StatusCode =? 200)
        then (inl (statusError "failed to get token" body StatusCode), log)
        else
          match decodeToken body with
          | inl err => (inl err, log)
          | inr tokenResp => (inr (AccessToken tokenResp), log)
          end
    end.

(** The loop [for { ... }] of [GetPayments], left at the first page without
    entries.  The remote side decides when that is; [fuel] bounds the
    number of pages requested and [None] says it ran out. *)
Fixpoint paymentPages (fuel : nat) (net : Net) (token orgSlug fromDate : string)
    (pageIndex : Z) (allPayments : list Payment) (log : list Request)
  : option (string + list Payment) * list Request :=
  match fuel with
  | O => (None, log)
  | S fuel =>
      match Do net (pageRequest token orgSlug fromDate pageIndex) log with
      | (Invalid err, log) | (Failed err, log) => (Some (inl err), log)
      | (Replied StatusCode body, log) =>
          if negb (StatusCode =? 200)
          then (Some (inl (statusError "failed to get payments" body StatusCode)), log)
          else
            match decodePayments body with
            | inl err => (Some (inl err), log)
            | inr paymentResp =>
                let pagePayments := length (Data paymentResp) in
                let allPayments :=
                  foldl (fun allPayments item => allPayments ++ [paymentOf item])
                    allPayments (Data paymentResp) in
                if (pagePayments =? 0)%nat
                then (Some (inr allPayments), log)
                else paymentPages fuel net token orgSlug fromDate
                       (wrap_int (pageIndex + 1)) allPayments log
            end
      end
  end.

Definition GetPayments (fuel : nat) (net : Net) (log : list Request)
  : option (string + list Payment) * list Request :=
  match getOAuthToken net log with
  | (inl err, log) => (Some (inl err), log)
  | (inr token, log) =>
      let orgSlug := Getenv net "HELLOASSO_ORG_SLUG" in
      let fromDate := Getenv net "HELLOASSO_FROM_DATE" in
      if bool_decide (orgSlug = "") || bool_decide (fromDate = "") then
        (Some (inl "HELLOASSO_ORG_SLUG and HELLOASSO_FROM_DATE environment variables must be set"),
         log)
      else paymentPages fuel net token orgSlug fromDate 1 [] log
  end.

(** Pages with entries as the remote side serves them, the first one in
    answer to request number [n] and asked for with the page index reached
    after [k] increments: each is a 200 reply that decodes. *)
Fixpoint served (net : Net) (token orgSlug fromDate : string) (n k : nat)
    (pages : list PaymentResponse) : Prop :=
  match pages with
  | [] => True
  | page :: rest =>
      (exists body,
         RoundTrip net n (pageRequest token orgSlug fromDate (pageIndexAfter k))
           = Replied 200 body
         /\ decodePayments body = inr page)
      /\ Data page <> []
      /\ served net token orgSlug fromDate (S n) (S k) rest
  end.

End Decoders.

(** The requests for the pages with index after [k], [k + 1], ... *)
Definition pageRequests (token orgSlug fromDate : string) (k count : nat) : list Request :=
  (fun i => pageRequest token orgSlug fromDate (pageIndexAfter (k + i))) <$> seq 0 count.

End helloasso_api.

(** ** Sample services

    A process environment, canned replies and decoders on which the
    services and the statements about stored rows are evaluated. *)

Module sample_services.

Import helloasso baserow net helloasso_api.

(** A payment of Bob's that is more than a year old on the sample clock. *)
Definition lapsed : helloasso.Payment :=
  mkPayment "cotisation-annuelle" (sample.day "2025-05-10") "bob@example.org" "Bob" "Lapsed".


(** The sample environment while Brevo refuses every send. *)
Definition outage : world.Env :=
  {| world.clock := world.clock sample.env;
     world.brevo_reply :=
       fun _ _ => Some "failed to send email: unauthorized, status code: 401";
     world.baserow_reply := fun _ _ => None;
     world.text := sample.asciiText |}.

(** The row Baserow holds of a member once the written columns are
    stored. *)
Definition storedRow (member : Member) : gmap string (JSON Z) :=
  <["Id" := JNumber (Id member)]>
    (<["E-mail" := JString (baserow.Email member)]>
       (<["Active MemberShip" := JBool (ActiveMembership member)]>
          (<["Last Payment Date" :=
               JString (time.Format_date (LastPaymentDate member))]>
             (<["Last Contribution Email Date" :=
                  JString (time.Format_date (LastContributionEmailDate member))]>
                (<["Number of Contributions Email" :=
                     JNumber (NumberContributionsEmail member)]> ∅))))).

(** The settings of the process. *)
Definition settings (name : string) : string :=
  if String.eqb name "HELLOASSO_API_ID" then "client"
  else if String.eqb name "HELLOASSO_API_SECRET" then "secret"
  else if String.eqb name "HELLOASSO_ORG_SLUG" then "boavizta"
  else if String.eqb name "HELLOASSO_FROM_DATE" then "2023-01-01"
  else if String.eqb name "BASEROW_API_TOKEN" then "token"
  else if String.eqb name "BASEROW_MEMBER_TABLE_ID" then "42"
  else "".

(** A process without any setting, on a network that answers nothing. *)
Definition unset : Net := mkNet (fun _ => "") (fun _ _ => Failed "connection refused").

(** HelloAsso answering the token exchange, then a page with one entry and
    a page without entries. *)
Definition helloasso_up : Net :=
  mkNet settings
    (fun n _ =>
       match n with
       | 0%nat => Replied 200 "token"
       | 1%nat => Replied 200 "page 1"
       | 2%nat => Replied 200 "page 2"
       | _ => Failed "connection refused"
       end).

(** HelloAsso giving up after the first page. *)
Definition helloasso_busy : Net :=
  mkNet settings
    (fun n _ =>
       match n with
       | 0%nat => Replied 200 "token"
       | 1%nat => Replied 200 "page 1"
       | _ => Replied 503 "busy"
       end).

(** HelloAsso answering every page request with the same page of one
    entry. *)
Definition helloasso_endless : Net :=
  mkNet settings
    (fun n _ =>
       match n with
       | 0%nat => Replied 200 "token"
       | _ => Replied 200 "page 1"
       end).

Definition decodeToken (body : string) : string + TokenResponse :=
  if String.eqb body "token" then inr (mkTokenResponse "access" "bearer" 1800)
  else inl "unexpected end of JSON input".

Definition entry : Datum :=
  mkDatum
    (mkOrder 7 (sample.day "2025-05-10") "cotisation-annuelle" "Membership")
    (mkPayer "bob@example.org" "JAM" "Bob" "Lapsed")
    [mkItem 8 3000 "Membership" "Processed"] 9 3000 (sample.day "2025-05-10") "Authorized".

Definition page1 : PaymentResponse :=
  mkPaymentResponse [entry] (mkPagination 100 1 1 1 "").

Definition page2 : PaymentResponse :=
  mkPaymentResponse [] (mkPagination 100 1 2 1 "").

Definition decodePayments (body : string) : string + PaymentResponse :=
  if String.eqb body "page 1" then inr page1
  else if String.eqb body "page 2" then inr page2
  else inl "unexpected end of JSON input".

(** Baserow serving the member table in two pages, found by address. *)
Definition secondPage : string :=
  "https://baserow.boavizta.org/api/database/rows/table/42/?page=2&user_field_names=true".

Definition baserow_up : Net :=
  mkNet settings
    (fun _ req =>
       if String.eqb (URL req) (baserow_api.firstURL "42") then Replied 200 "rows 1"
       else if String.eqb (URL req) secondPage then Replied 200 "rows 2"
       else Replied 404 "not found").

(** Baserow failing on the second page. *)
Definition baserow_down : Net :=
  mkNet settings
    (fun _ req =>
       if String.eqb (URL req) (baserow_api.firstURL "42") then Replied 200 "rows 1"
       else Replied 502 "bad gateway").

Definition rows1 : @baserow_api.BaserowResponse Z :=
  baserow_api.mkBaserowResponse 2 secondPage JNull [storedRow sample.ada].

Definition rows2 : @baserow_api.BaserowResponse Z :=
  baserow_api.mkBaserowResponse 2 "" (JString (baserow_api.firstURL "42"))
    [storedRow sample.bob].

Definition decodeRows (body : string) : string + @baserow_api.BaserowResponse Z :=
  if String.eqb body "rows 1" then inr rows1
  else if String.eqb body "rows 2" then inr rows2
  else inl "unexpected end of JSON input".

End sample_services.

(** * Properties *)

(** ** The calendar of package [time] *)

Section Calendar.

Import time.

(** The calendar check holds over one 400-year cycle by evaluation and is
    carried to every other day by the period of the calendar. *)
Lemma all_from_spec fuel : forall z P, all_from fuel z P = true ->
  forall k, z <= k < z + Z.of_nat fuel -> P k = true.
Proof.
  induction fuel as [|f IH]; intros z P H k Hk; [lia|].
  simpl in H. apply andb_prop in H as [H1 H2].
  destruct (Z.eq_dec k z) as [->|Hne]; [exact H1|].
  apply (IH _ _ H2). lia.
Qed.

Lemma civil_ok_cycle : all_from (Z.to_nat 146097) (-306) civil_ok = true.
Proof. vm_compute. reflexivity. Qed.

Lemma civil_shift n e :
  civil (n + 146097 * e) = let '(y, m, d) := civil n in (y + 400 * e, m, d).
Proof.
  unfold civil. cbv zeta.
  replace (n + 146097 * e + 306) with (n + 306 + e * 146097) by lia.
  rewrite Z.div_add by lia.
  set (era := (n + 306) / 146097).
  replace (n + 306 + e * 146097 - (era + e) * 146097)
    with (n + 306 - era * 146097) by lia.
  f_equal. f_equal. lia.
Qed.

Lemma daysSinceYear1_shift y m d e :
  daysSinceYear1 (y + 400 * e) m d = daysSinceYear1 y m d + 146097 * e.
Proof.
  unfold daysSinceYear1. cbv zeta.
  replace (if m <=? 2 then y + 400 * e - 1 else y + 400 * e)
    with ((if m <=? 2 then y - 1 else y) + e * 400)
    by (destruct (m <=? 2); lia).
  set (y' := if m <=? 2 then y - 1 else y).
  rewrite Z.div_add by lia.
  replace (y' + e * 400 - (y' / 400 + e) * 400) with (y' - y' / 400 * 400) by lia.
  lia.
Qed.

Lemma civil_ok_all n : civil_ok n = true.
Proof.
  pose (e := (n + 306) / 146097).
  pose (r := n - 146097 * e).
  assert (Hr : -306 <= r < -306 + Z.of_nat (Z.to_nat 146097)).
  { rewrite Z2Nat.id by lia. unfold r, e. Z.to_euclidean_division_equations. lia. }
  pose proof (all_from_spec _ _ _ civil_ok_cycle r Hr) as H.
  replace n with (r + 146097 * e) by (unfold r; lia).
  unfold civil_ok in *. rewrite civil_shift.
  destruct (civil r) as [[y m] d].
  rewrite daysSinceYear1_shift.
  repeat (apply andb_prop in H as [H ?]).
  repeat (apply andb_true_intro; split); try assumption.
  apply Z.eqb_eq in H. apply Z.eqb_eq. lia.
Qed.

Lemma civil_spec n y m d :
  civil n = (y, m, d) -> daysSinceYear1 y m d = n /\ 1 <= m <= 12.
Proof.
  intros E. pose proof (civil_ok_all n) as H. unfold civil_ok in H. rewrite E in H.
  repeat (apply andb_prop in H as [H ?]). lia.
Qed.

Lemma daysSinceYear1_add_days y m d k :
  daysSinceYear1 y m (d + k) = daysSinceYear1 y m d + k.
Proof. unfold daysSinceYear1. cbv zeta. lia. Qed.

(** [AddDate(0, 0, k)] moves the instant by [k] days of 24 hours and keeps
    the Location. *)
Lemma AddDate_days t k :
  AddDate t 0 0 k = mkTime (abs_ns t + k * secondsPerDay * nsPerSecond) (zone t).
Proof.
  unfold AddDate, date. destruct (civil _) as [[y m] d] eqn:E.
  apply civil_spec in E as [E Hm]. unfold Date. cbv zeta.
  replace (m + 0 - 1) with (m - 1) by lia.
  rewrite (Z.div_small (m - 1) 12), (Z.mod_small (m - 1) 12) by lia.
  replace (y + 0 + 0) with y by lia. replace (m - 1 + 1) with m by lia.
  rewrite daysSinceYear1_add_days, E. f_equal.
  unfold secondOfDay, Nanosecond, localSeconds, secondsPerDay, nsPerSecond.
  Z.to_euclidean_division_equations. lia.
Qed.

End Calendar.

(** ** Lists, maps and [lo] *)

Section LoFacts.

Context {T : Type}.

Lemma elem_of_Filter (l : list T) (p : T -> bool) (x : T) :
  x ∈ lo.Filter l p <-> x ∈ l /\ p x = true.
Proof. unfold lo.Filter. rewrite !list_elem_of_In. apply filter_In. Qed.

Lemma Filter_all (l : list T) (p : T -> bool) :
  (forall x, x ∈ l -> p x = true) -> lo.Filter l p = l.
Proof.
  unfold lo.Filter. induction l as [|a l IH]; intros H; [done|].
  simpl. rewrite (H a) by left. f_equal. apply IH. intros x Hx. apply H. by right.
Qed.

Lemma Filter_snoc (l : list T) (p : T -> bool) (x : T) :
  lo.Filter (l ++ [x]) p = lo.Filter l p ++ (if p x then [x] else []).
Proof. unfold lo.Filter. rewrite List.filter_app. simpl. by destruct (p x). Qed.

Context {K : Type} `{Countable K}.

Lemma lookup_GroupBy (collection : list T) (iteratee : T -> K) (k : K) :
  lo.GroupBy collection iteratee !! k =
  match lo.group_of collection iteratee k with
  | [] => None
  | g => Some g
  end.
Proof.
  unfold lo.GroupBy, lo.group_of.
  induction collection as [|x l IH] using rev_ind; [done|].
  rewrite foldl_app, Filter_snoc. simpl.
  destruct (decide (iteratee x = k)) as [->|Hne].
  - rewrite lookup_insert_eq, IH, bool_decide_eq_true_2 by done.
    destruct (lo.Filter l _); done.
  - rewrite lookup_insert_ne, IH, bool_decide_eq_false_2 by done.
    by rewrite app_nil_r.
Qed.

Lemma lookup_MapValues {V R} (m : gmap K V) (f : V -> K -> R) (k : K) :
  lo.MapValues m f !! k = (fun v => f v k) <$> m !! k.
Proof. unfold lo.MapValues. rewrite map_lookup_imap. by destruct (m !! k). Qed.

Lemma elem_of_Values {V} (m : gmap K V) (v : V) :
  v ∈ lo.Values m <-> exists k, m !! k = Some v.
Proof.
  unfold lo.Values. rewrite list_elem_of_fmap. split.
  - intros [[k v'] [-> Hin]]. exists k. by apply elem_of_map_to_list.
  - intros [k Hk]. exists (k, v). split; [done|]. by apply elem_of_map_to_list.
Qed.

(** In a list whose items have pairwise different keys, the group of an
    item is that item alone. *)
Lemma group_of_NoDup (l : list T) (f : T -> K) (x : T) :
  NoDup (f <$> l) -> x ∈ l -> lo.group_of l f (f x) = [x].
Proof.
  unfold lo.group_of, lo.Filter. induction l as [|a l IH]; intros Hnd Hx.
  - by apply elem_of_nil in Hx.
  - rewrite fmap_cons in Hnd. apply NoDup_cons in Hnd as [Hna Hnd]. simpl.
    apply elem_of_cons in Hx as [->|Hx].
    + rewrite bool_decide_eq_true_2 by done. f_equal.
      clear IH Hnd. induction l as [|b l IHl]; [done|]. simpl.
      rewrite fmap_cons in Hna. apply not_elem_of_cons in Hna as [Hne Hna].
      rewrite bool_decide_eq_false_2 by done. by apply IHl.
    + rewrite bool_decide_eq_false_2, IH; [done..|].
      intros E. apply Hna. rewrite E. by apply list_elem_of_fmap_2.
Qed.

Lemma group_of_nil_iff (l : list T) (f : T -> K) (k : K) :
  lo.group_of l f k = [] <-> forall x, x ∈ l -> f x <> k.
Proof.
  unfold lo.group_of. split.
  - intros E x Hx Hk.
    assert (Hin : x ∈ lo.Filter l (fun item => bool_decide (f item = k))).
    { apply elem_of_Filter. split; [done|]. by apply bool_decide_eq_true_2. }
    rewrite E in Hin. by apply elem_of_nil in Hin.
  - intros Hall. destruct (lo.Filter l _) as [|y g] eqn:E; [done|].
    assert (Hy : y ∈ lo.Filter l (fun item => bool_decide (f item = k))).
    { rewrite E. left. }
    apply elem_of_Filter in Hy as [Hy Hk]. apply bool_decide_eq_true_1 in Hk.
    by destruct (Hall y Hy).
Qed.

End LoFacts.

(** ** The payment reducer *)

Section Reducer.

Import helloasso main.

Local Abbreviation latest g :=
  (lo.MaxBy zeroPayment g (fun p1 p2 => time.After (OrderDate p1) (OrderDate p2))).

Local Abbreviation reduced fp :=
  (lo.MapValues (lo.GroupBy fp (fun payment => PayerEmail payment))
     (fun payments (_ : string) => latest payments)).

Local Abbreviation instant p := (time.abs_ns (OrderDate p)).

(** [lo.MaxBy] with a strict comparison keeps the first of the greatest
    items: everything in front of its result is strictly earlier, nothing
    behind it is later. *)
Lemma latest_first_max (first : helloasso.Payment) (rest : list helloasso.Payment) :
  exists front back,
    first :: rest = front ++ latest (first :: rest) :: back
    /\ Forall (fun q => instant q < instant (latest (first :: rest))) front
    /\ Forall (fun q => instant q <= instant (latest (first :: rest))) back.
Proof.
  unfold lo.MaxBy. induction rest as [|x rest IH] using rev_ind.
  - exists [], []. simpl. repeat split; constructor.
  - destruct IH as (front & back & Hsplit & Hfront & Hback).
    rewrite foldl_app. simpl.
    set (r := foldl _ first rest) in *.
    unfold time.After. destruct (Z.ltb_spec (instant r) (instant x)) as [Hlt|Hge].
    + exists (front ++ r :: back), []. split; [|split].
      * rewrite app_comm_cons, Hsplit. done.
      * apply Forall_app. split.
        { eapply Forall_impl; [exact Hfront|]. simpl. intros; lia. }
        constructor; [lia|].
        eapply Forall_impl; [exact Hback|]. simpl. intros; lia.
      * constructor.
    + exists front, (back ++ [x]). split; [|split].
      * rewrite app_comm_cons, Hsplit, <- app_assoc. done.
      * done.
      * apply Forall_app. split; [done|]. constructor; [lia|constructor].
Qed.

Lemma latest_elem_of (g : list helloasso.Payment) : g <> [] -> latest g ∈ g.
Proof.
  destruct g as [|first rest]; [done|]. intros _.
  destruct (latest_first_max first rest) as (front & back & Hsplit & _).
  rewrite Hsplit at 2. apply elem_of_app. right. left.
Qed.

Lemma latest_singleton (p : helloasso.Payment) : latest [p] = p.
Proof. done. Qed.

Lemma lookup_reduced (fp : list helloasso.Payment) (k : string) :
  reduced fp !! k =
  match lo.group_of fp (fun payment => PayerEmail payment) k with
  | [] => None
  | g => Some (latest g)
  end.
Proof.
  rewrite lookup_MapValues, lookup_GroupBy.
  by destruct (lo.group_of fp _ k).
Qed.

Lemma elem_of_group_of (fp : list helloasso.Payment) (k : string) (p : helloasso.Payment) :
  p ∈ lo.group_of fp (fun payment => PayerEmail payment) k <-> p ∈ fp /\ PayerEmail p = k.
Proof.
  unfold lo.group_of. rewrite elem_of_Filter.
  split; intros [? Hk]; split; try done.
  - by apply bool_decide_eq_true_1 in Hk.
  - by apply bool_decide_eq_true_2.
Qed.

Lemma reduced_Some (fp : list helloasso.Payment) (k : string) (p : helloasso.Payment) :
  reduced fp !! k = Some p ->
  p ∈ fp /\ PayerEmail p = k
  /\ p = latest (lo.group_of fp (fun payment => PayerEmail payment) k).
Proof.
  rewrite lookup_reduced.
  destruct (lo.group_of fp _ k) as [|a g] eqn:E; [done|].
  intros [= <-].
  assert (Hin : latest (a :: g) ∈ lo.group_of fp (fun payment => PayerEmail payment) k)
    by (rewrite E; apply latest_elem_of; discriminate).
  apply elem_of_group_of in Hin as [? ?]. done.
Qed.

Lemma elem_of_uniquePayments (fp : list helloasso.Payment) (p : helloasso.Payment) :
  p ∈ uniquePayments fp <-> reduced fp !! PayerEmail p = Some p.
Proof.
  unfold uniquePayments. rewrite elem_of_Values. split.
  - intros [k Hk]. pose proof (reduced_Some _ _ _ Hk) as (_ & <- & _). done.
  - intros Hk. by exists (PayerEmail p).
Qed.

Lemma uniquePayments_NoDup_email (fp : list helloasso.Payment) :
  NoDup (PayerEmail <$> uniquePayments fp).
Proof.
  unfold uniquePayments, lo.Values.
  set (m := reduced fp).
  assert (E : PayerEmail <$> (map_to_list m).*2 = (map_to_list m).*1).
  { rewrite <- list_fmap_compose. apply Forall_fmap_ext, Forall_forall.
    intros [k p] Hin. apply elem_of_map_to_list in Hin. simpl.
    by destruct (reduced_Some _ _ _ Hin) as (_ & ? & _). }
  rewrite E. apply NoDup_fst_map_to_list.
Qed.

Lemma uniquePayments_filtered (payments : list helloasso.Payment) (p : helloasso.Payment) :
  p ∈ uniquePayments (filteredPayments payments) -> p ∈ filteredPayments payments.
Proof.
  intros Hp. apply elem_of_uniquePayments in Hp.
  by destruct (reduced_Some _ _ _ Hp) as (? & _).
Qed.

Lemma NoDup_email_Filter_length (l : list helloasso.Payment) (email : string) :
  NoDup (PayerEmail <$> l) ->
  (length (lo.Filter l (fun p => String.eqb (PayerEmail p) email)) <= 1)%nat.
Proof.
  unfold lo.Filter. induction l as [|a l IH]; intros Hnd; simpl; [lia|].
  rewrite fmap_cons in Hnd. apply NoDup_cons in Hnd as [Hna Hnd].
  destruct (String.eqb_spec (PayerEmail a) email) as [Ha|Ha]; [|by apply IH].
  destruct (List.filter _ l) as [|y ys] eqn:E; simpl; [lia|].
  assert (Hy : y ∈ lo.Filter l (fun p => String.eqb (PayerEmail p) email)).
  { unfold lo.Filter. rewrite E. left. }
  apply elem_of_Filter in Hy as [Hy Hk]. apply String.eqb_eq in Hk.
  destruct Hna. rewrite Ha, <- Hk. by apply list_elem_of_fmap_2.
Qed.

(** Reducing a slice that already holds one payment per email, all from
    the two membership forms, rebuilds the map it came from. *)
Lemma uniquePayments_again (payments ups : list helloasso.Payment) :
  uniquePayments_of payments ups ->
  filteredPayments ups = ups
  /\ uniquePayments ups = uniquePayments (filteredPayments payments).
Proof.
  unfold uniquePayments_of. set (fp := filteredPayments payments). intros Hups.
  assert (Hin : forall p, p ∈ ups <-> p ∈ uniquePayments fp).
  { intros p. by rewrite Hups. }
  assert (Hnd : NoDup (PayerEmail <$> ups)).
  { rewrite Hups. apply uniquePayments_NoDup_email. }
  split.
  - apply Filter_all. intros p Hp. apply Hin, uniquePayments_filtered in Hp.
    by apply elem_of_Filter in Hp as [_ ?].
  - unfold uniquePayments. f_equal. apply map_eq. intros k.
    rewrite (lookup_reduced ups).
    destruct (reduced fp !! k) as [p|] eqn:Hk.
    + pose proof (reduced_Some _ _ _ Hk) as (_ & Hemail & _). subst k.
      assert (Hp : p ∈ ups) by (by apply Hin, elem_of_uniquePayments).
      by rewrite (group_of_NoDup ups (fun payment => PayerEmail payment) p Hnd Hp).
    + assert (E : lo.group_of ups (fun payment => PayerEmail payment) k = []).
      { apply group_of_nil_iff. intros x Hx Hxk.
        apply Hin, elem_of_uniquePayments in Hx. rewrite Hxk in Hx. congruence. }
      by rewrite E.
Qed.

End Reducer.

Section ReducerClaims.

Import helloasso main.

(** C4.  Whatever order the reduced payments come out in, at most one of
    them carries a given payer email, and it is not dated before any
    filtered input payment with that email. *)
Theorem reduced_one_latest_per_email
    (payments ups : list helloasso.Payment) (email : string) :
  uniquePayments_of payments ups ->
  (length (lo.Filter ups (fun p => String.eqb (PayerEmail p) email)) <= 1)%nat
  /\ forall p, p ∈ ups -> PayerEmail p = email ->
       forall q, q ∈ filteredPayments payments -> PayerEmail q = email ->
         time.Before (OrderDate p) (OrderDate q) = false.
Proof.
  intros Hups. split.
  - apply NoDup_email_Filter_length. unfold uniquePayments_of in Hups.
    rewrite Hups. apply uniquePayments_NoDup_email.
  - intros p Hp Hemail q Hq Hqe. unfold uniquePayments_of in Hups.
    rewrite Hups in Hp. apply elem_of_uniquePayments in Hp.
    apply reduced_Some in Hp as (_ & _ & Hmax).
    assert (Hqg : q ∈ lo.group_of (filteredPayments payments)
                        (fun payment => PayerEmail payment) (PayerEmail p)).
    { apply elem_of_group_of. split; [done|congruence]. }
    destruct (lo.group_of _ _ (PayerEmail p)) as [|first rest] eqn:E.
    { by apply elem_of_nil in Hqg. }
    destruct (latest_first_max first rest) as (front & back & Hsplit & Hfront & Hback).
    rewrite <- Hmax in Hsplit, Hfront, Hback.
    rewrite Hsplit in Hqg. unfold time.Before. apply Z.ltb_ge.
    apply elem_of_app in Hqg as [Hqg|Hqg].
    + rewrite Forall_forall in Hfront. specialize (Hfront q Hqg). simpl in Hfront. lia.
    + apply elem_of_cons in Hqg as [->|Hqg]; [lia|].
      rewrite Forall_forall in Hback. by apply Hback.
Qed.

(** C5.  The reducer is idempotent: reducing any slice the reducer can
    return gives back the same payments. *)
Theorem reducer_idempotent (payments ups ups' : list helloasso.Payment) :
  uniquePayments_of payments ups -> uniquePayments_of ups ups' -> ups' ≡ₚ ups.
Proof.
  intros Hups Hups'. destruct (uniquePayments_again _ _ Hups) as [Hf Hu].
  unfold uniquePayments_of in *. rewrite Hups', Hf, Hu. by symmetry.
Qed.

(** C6, as amended.  Among the filtered payments of one payer email the
    reducer keeps the first one, in input order, that carries the latest
    order date: the payments in front of it are strictly earlier and none
    behind it is later. *)
Theorem tie_first_seen_wins (payments ups : list helloasso.Payment) (p : helloasso.Payment) :
  uniquePayments_of payments ups -> p ∈ ups ->
  exists front back,
    lo.group_of (filteredPayments payments) (fun payment => PayerEmail payment)
      (PayerEmail p) = front ++ p :: back
    /\ Forall (fun q => time.Before (OrderDate q) (OrderDate p) = true) front
    /\ Forall (fun q => time.After (OrderDate q) (OrderDate p) = false) back.
Proof.
  intros Hups Hp. unfold uniquePayments_of in Hups.
  rewrite Hups in Hp. apply elem_of_uniquePayments in Hp.
  pose proof (reduced_Some _ _ _ Hp) as (_ & _ & Hmax).
  rewrite lookup_reduced in Hp.
  destruct (lo.group_of _ _ (PayerEmail p)) as [|first rest] eqn:E; [done|].
  destruct (latest_first_max first rest) as (front & back & Hsplit & Hfront & Hback).
  rewrite <- Hmax in Hsplit, Hfront, Hback.
  exists front, back. split; [done|]. split.
  - eapply Forall_impl; [exact Hfront|]. simpl. intros q Hq.
    unfold time.Before. by apply Z.ltb_lt.
  - eapply Forall_impl; [exact Hback|]. simpl. intros q Hq.
    unfold time.After. by apply Z.ltb_ge.
Qed.

End ReducerClaims.

(** ** The reconciler *)

Section Reconciler.

Import helloasso baserow main.

(** The body of the [lo.Reduce] in [membersByEmail] files a member under
    its primary email and its non-empty alternates and leaves every other
    key alone. *)
Lemma lookup_membersByEmail_snoc (members : list baserow.Member) (member : baserow.Member)
    (email : string) :
  membersByEmail (members ++ [member]) !! email =
  if indexedUnder member email then Some member else membersByEmail members !! email.
Proof.
  unfold membersByEmail, lo.Reduce, indexedUnder. rewrite foldl_app. simpl.
  set (acc := foldl _ ∅ members).
  destruct (String.eqb_spec (AlternativeEmail1 member) "") as [E1|E1];
  destruct (String.eqb_spec (AlternativeEmail2 member) "") as [E2|E2];
  destruct (String.eqb_spec email (Email member)) as [E0|E0];
  destruct (String.eqb_spec email (AlternativeEmail1 member)) as [E3|E3];
  destruct (String.eqb_spec email (AlternativeEmail2 member)) as [E4|E4];
  simpl; subst; rewrite ?lookup_insert; repeat case_decide; congruence.
Qed.

Lemma lookup_membersByEmail_last (members : list baserow.Member) (email : string) :
  membersByEmail members !! email =
  last (lo.Filter members (fun member => indexedUnder member email)).
Proof.
  induction members as [|member members IH] using rev_ind; [done|].
  rewrite lookup_membersByEmail_snoc, Filter_snoc, IH.
  destruct (indexedUnder member email).
  - by rewrite last_snoc.
  - by rewrite app_nil_r.
Qed.

Lemma lookup_membersByEmail_not_later (front back : list baserow.Member)
    (member : baserow.Member) (email : string) :
  indexedUnder member email = true ->
  (forall later, later ∈ back -> indexedUnder later email = false) ->
  membersByEmail (front ++ member :: back) !! email = Some member.
Proof.
  intros Hm Hback. rewrite lookup_membersByEmail_last.
  unfold lo.Filter. rewrite List.filter_app. simpl. rewrite Hm.
  assert (E : List.filter (fun m => indexedUnder m email) back = []).
  { induction back as [|b back IH]; [done|]. simpl.
    rewrite (Hback b) by left. apply IH. intros later Hl. apply Hback. by right. }
  rewrite E. by rewrite last_snoc.
Qed.

End Reconciler.

Section ReconcilerClaims.

Import helloasso baserow main.

(** C8, as amended.  A member with two non-empty alternate emails has its
    three emails among the keys of the index.  Each of these entries holds
    the last member of the list filed under that email, which is this
    member or one that follows it; it is this member when no member that
    follows it is filed under the same email. *)
Theorem member_reachable_by_unshadowed_emails
    (front back : list baserow.Member) (member : baserow.Member) (email : string) :
  AlternativeEmail1 member <> "" -> AlternativeEmail2 member <> "" ->
  email ∈ [Email member; AlternativeEmail1 member; AlternativeEmail2 member] ->
  (exists holder,
      membersByEmail (front ++ member :: back) !! email = Some holder
      /\ holder ∈ member :: back /\ indexedUnder holder email = true)
  /\ ((forall later, later ∈ back -> indexedUnder later email = false) ->
      membersByEmail (front ++ member :: back) !! email = Some member).
Proof.
  intros H1 H2 Hemail.
  assert (Hm : indexedUnder member email = true).
  { unfold indexedUnder.
    apply String.eqb_neq in H1, H2. rewrite H1, H2. simpl.
    repeat (apply elem_of_cons in Hemail as [->|Hemail]);
      rewrite ?String.eqb_refl, ?orb_true_r; try done.
    by apply elem_of_nil in Hemail. }
  split; [|by apply lookup_membersByEmail_not_later].
  rewrite lookup_membersByEmail_last. unfold lo.Filter.
  rewrite List.filter_app, last_app. simpl. rewrite Hm.
  destruct (last (member :: List.filter _ back)) as [holder|] eqn:E.
  - exists holder. split; [done|].
    apply last_Some_elem_of in E.
    apply elem_of_cons in E as [->|E]; [split; [left|done]|].
    apply list_elem_of_In, filter_In in E as [E ?].
    split; [right; by apply list_elem_of_In|done].
  - by apply last_None in E.
Qed.

(** C1.  Every matched pair falls in exactly one of three classes: a
    reminder is needed (order date strictly before the threshold), the
    status is to be updated (order date not before the threshold, and the
    member inactive or its stored last payment on another day), or nothing
    is done.  The class is a function of the order date, the threshold and
    the member's stored activity flag and last payment date. *)
Theorem classification_total_exclusive
    (oneYearAgo : time.Time) (pairs : list MemberPaymentPair) (pair : MemberPaymentPair) :
  pair ∈ pairs ->
  let reminder := pair ∈ membersToUpdatePaymentNeeded oneYearAgo pairs in
  let update := pair ∈ membersToUpdateStatusUpdate oneYearAgo pairs in
  let orderDate := OrderDate (Payment pair) in
  let member := Member pair in
  let sameDay :=
    time.Format_date (LastPaymentDate member) = time.Format_date orderDate in
  (reminder <-> time.Before orderDate oneYearAgo = true)
  /\ (update <->
      time.Before orderDate oneYearAgo = false
      /\ (ActiveMembership member = false \/ ~ sameDay))
  /\ (~ reminder /\ ~ update <->
      time.Before orderDate oneYearAgo = false
      /\ ActiveMembership member = true /\ sameDay)
  /\ ((reminder /\ ~ update) \/ (~ reminder /\ update) \/ (~ reminder /\ ~ update))
  /\ ~ (reminder /\ update)
  /\ forall pair',
       pair' ∈ pairs ->
       OrderDate (Payment pair') = orderDate ->
       ActiveMembership (Member pair') = ActiveMembership member ->
       LastPaymentDate (Member pair') = LastPaymentDate member ->
       (pair' ∈ membersToUpdatePaymentNeeded oneYearAgo pairs <-> reminder)
       /\ (pair' ∈ membersToUpdateStatusUpdate oneYearAgo pairs <-> update).
Proof.
  intros Hin. cbv zeta.
  unfold membersToUpdatePaymentNeeded, membersToUpdateStatusUpdate.
  rewrite !elem_of_Filter. unfold paymentNeeded, statusUpdate.
  split_and!.
  6: { intros pair' Hin' E1 E2 E3. rewrite !elem_of_Filter, E1, E2, E3. tauto. }
  all: destruct (time.Before (OrderDate (Payment pair)) oneYearAgo);
    destruct (ActiveMembership (Member pair));
    destruct (String.eqb_spec (time.Format_date (LastPaymentDate (Member pair)))
                (time.Format_date (OrderDate (Payment pair)))) as [Hs|Hs];
    simpl; intuition congruence.
Qed.

End ReconcilerClaims.

(** ** The notifier *)

Section Notifier.

Import helloasso brevo baserow main.

Context (env : world.Env).

(** The member as [sendEmailAndUpdate] holds it before the guard. *)
Local Abbreviation prepared pair :=
  (set_LastPaymentDate (OrderDate (Payment pair)) (set_ActiveMembership false (Member pair))).

(** The guard of [sendEmailAndUpdate], on the clock reading it takes. *)
Local Abbreviation guard pair w :=
  (time.Before (LastContributionEmailDate (Member pair))
     (time.AddDate (world.clock env (world.ticks w)) 0 0 (-14))).

Lemma sendEmailAndUpdate_suppressed (pair : MemberPaymentPair) (w : world.World) :
  guard pair w = false ->
  sendEmailAndUpdate env pair w = (tt, world.mkWorld (S (world.ticks w)) (world.trace w)).
Proof.
  intros Hg. unfold sendEmailAndUpdate, world.bind, world.Now. simpl. by rewrite Hg.
Qed.

Lemma sendEmailAndUpdate_sent (pair : MemberPaymentPair) (w : world.World) :
  guard pair w = true ->
  let data := emailData (world.text env) (prepared pair) in
  let err := world.brevo_reply env (length (world.trace w)) data in
  let member :=
    match err with
    | Some _ => prepared pair
    | None =>
        set_NumberContributionsEmail
          (wrap_int (NumberContributionsEmail (Member pair) + 1))
          (set_LastContributionEmailDate (world.clock env (S (world.ticks w))) (prepared pair))
    end in
  let err' := world.baserow_reply env (S (length (world.trace w))) member in
  sendEmailAndUpdate env pair w =
  (tt, world.mkWorld (match err with Some _ => 1 | None => 2 end + world.ticks w)%nat
         (world.trace w ++ [world.EvSendEmail data err; world.EvUpdateMember member err'])).
Proof.
  intros Hg. cbv zeta.
  unfold sendEmailAndUpdate, world.bind, world.Now, world.SendEmail, world.UpdateMember,
    world.ret.
  simpl. rewrite Hg. simpl.
  destruct (world.brevo_reply env _ _) eqn:E; simpl;
    rewrite length_app, <- app_assoc; simpl;
    replace (length (world.trace w) + 1)%nat with (S (length (world.trace w))) by lia;
    done.
Qed.

Lemma ForEach_app {T} (front back : list T) (f : T -> world.M unit) (w : world.World) :
  lo.ForEach (front ++ back) f w = lo.ForEach back f (lo.ForEach front f w).2.
Proof.
  revert w. induction front as [|x front IH]; intros w; [done|].
  simpl. unfold world.bind. destruct (f x w) as [[] w1]. apply IH.
Qed.

End Notifier.

Section NotifierClaims.

Import helloasso brevo baserow main.

(** C3.  [sendEmailAndUpdate] persists a raised reminder count and a
    last-reminder date set to the clock reading only after a send that
    returned no error.  After a failed send the member is persisted with
    both fields as stored; when the guard holds the send back nothing is
    persisted and nothing is changed.  The other writer,
    [updateValidMembers], never sends, never raises the count and never
    touches the date. *)
Theorem bookkeeping_only_after_successful_send
    (env : world.Env) (pair : MemberPaymentPair) (w : world.World) :
  let stored := Member pair in
  let data :=
    emailData (world.text env)
      (set_LastPaymentDate (OrderDate (Payment pair)) (set_ActiveMembership false stored)) in
  let err := world.brevo_reply env (length (world.trace w)) data in
  let w' := (sendEmailAndUpdate env pair w).2 in
  (if time.Before (LastContributionEmailDate stored)
        (time.AddDate (world.clock env (world.ticks w)) 0 0 (-14))
   then exists member err',
          world.trace w' =
          world.trace w ++ [world.EvSendEmail data err; world.EvUpdateMember member err']
          /\ match err with
             | None =>
                 NumberContributionsEmail member =
                   wrap_int (NumberContributionsEmail stored + 1)
                 /\ LastContributionEmailDate member = world.clock env (S (world.ticks w))
             | Some _ =>
                 NumberContributionsEmail member = NumberContributionsEmail stored
                 /\ LastContributionEmailDate member = LastContributionEmailDate stored
             end
   else world.trace w' = world.trace w)
  /\ exists member err',
       world.trace (updateValidMembers env pair w).2 =
       world.trace w ++ [world.EvUpdateMember member err']
       /\ NumberContributionsEmail member = 0
       /\ LastContributionEmailDate member = LastContributionEmailDate stored.
Proof.
  cbv zeta. split.
  - destruct (time.Before _ _) eqn:Hg.
    + rewrite (sendEmailAndUpdate_sent env pair w Hg). simpl.
      eexists _, _. split; [reflexivity|].
      by destruct (world.brevo_reply env _ _).
    + by rewrite (sendEmailAndUpdate_suppressed env pair w Hg).
  - unfold updateValidMembers, world.bind, world.UpdateMember, world.ret. simpl.
    eexists _, _. split; [reflexivity|]. done.
Qed.

Lemma existsb_FrenchId (langs : list Z) :
  existsb (fun langId => langId =? FrenchId) langs = true <-> FrenchId ∈ langs.
Proof.
  rewrite existsb_exists. split.
  - intros (x & Hx & E). apply Z.eqb_eq in E. subst. by apply list_elem_of_In.
  - intros Hin. exists FrenchId. split; [by apply list_elem_of_In|apply Z.eqb_refl].
Qed.

Lemma isFrench_spec (member : baserow.Member) :
  isFrench member = true <->
  FrenchId ∈ PreferredLanguages member
  \/ ((FrenchId ∉ PreferredLanguages member) /\ Country member = "France").
Proof.
  unfold isFrench. pose proof (existsb_FrenchId (PreferredLanguages member)) as Hl.
  destruct (existsb _ _); simpl.
  - split; [intros _; left; by apply Hl|done].
  - destruct (String.eqb_spec (Country member) "France") as [Hc|Hc]; split; try done.
    + intros _. right. split; [|done]. intros Hin. apply Hl in Hin. done.
    + intros [Hin|[_ ?]]; [apply Hl in Hin|]; done.
Qed.

(** C7.  The message [sendEmailAndUpdate] composes for a pair is the French
    one, with the French contribution link, exactly when the French code
    is among the member's preferred languages, or it is not and the
    member's country is "France"; otherwise it is the English one with the
    English link.  The two subjects and the two links differ. *)
Theorem locale_selection (U : world.GoText) (pair : MemberPaymentPair) :
  let member := Member pair in
  let french :=
    FrenchId ∈ PreferredLanguages member
    \/ ((FrenchId ∉ PreferredLanguages member) /\ Country member = "France") in
  let data :=
    emailData U
      (set_LastPaymentDate (OrderDate (Payment pair)) (set_ActiveMembership false member)) in
  let firstName := toCamelCase U (FirstName member) in
  let linkFr :=
    "https://www.helloasso.com/associations/boavizta/adhesions/cotisation-annuelle" in
  let linkEn :=
    "https://www.helloasso.com/associations/boavizta/adhesions/annual-membership-fee" in
  (french ->
     Subject data = subjectFr
     /\ HtmlContent data = htmlContentFr firstName linkFr
     /\ TextContent data = textContentFr firstName linkFr)
  /\ (~ french ->
     Subject data = subjectEn
     /\ HtmlContent data = htmlContentEn firstName linkEn
     /\ TextContent data = textContentEn firstName linkEn)
  /\ (Subject data = subjectFr <-> french)
  /\ subjectFr <> subjectEn /\ linkFr <> linkEn.
Proof.
  cbv zeta.
  pose proof (isFrench_spec
    (set_LastPaymentDate (OrderDate (Payment pair))
       (set_ActiveMembership false (Member pair)))) as Hspec.
  simpl in Hspec. unfold emailData.
  destruct (isFrench _) eqn:E; simpl.
  - assert (Hf : FrenchId ∈ PreferredLanguages (Member pair)
              \/ ((FrenchId ∉ PreferredLanguages (Member pair))
                  /\ Country (Member pair) = "France")) by (by apply Hspec).
    split_and!; try done.
  - assert (Hf : ~ (FrenchId ∈ PreferredLanguages (Member pair)
              \/ ((FrenchId ∉ PreferredLanguages (Member pair))
                  /\ Country (Member pair) = "France"))).
    { intros H. apply Hspec in H. done. }
    split_and!; try done.
Qed.

End NotifierClaims.

Section MemberRows.

Import helloasso brevo baserow main.

Context {float64 : Type} (int_of_float64 : float64 -> Z).

Lemma getDateValue_zero (row : gmap string (JSON float64)) (key : string) :
  (forall dateStr, row !! key = Some (JString dateStr) ->
     dateStr = "" \/ time.Parse_date dateStr = None) ->
  getDateValue row key = time.zero.
Proof.
  intros H. unfold getDateValue.
  destruct (row !! key) as [ [ | | | dateStr | | ] | ]; try done.
  case_bool_decide as Hne; [|done].
  destruct (H dateStr eq_refl) as [-> | ->]; done.
Qed.

Lemma appendRows_fmap (members : list baserow.Member) (rows : list (gmap string (JSON float64))) :
  appendRows int_of_float64 members rows = members ++ (memberOfRow int_of_float64 <$> rows).
Proof.
  unfold appendRows. revert members.
  induction rows as [|row rows IH]; intros members; simpl.
  - by rewrite app_nil_r.
  - rewrite IH, <- app_assoc. done.
Qed.

(** C9.  A member whose last-reminder date is the zero time, which is what
    [GetMembers] leaves in the field when the column is absent, is not a
    string, is empty or does not parse as a date, passes the 14-day guard
    on any clock reading after 15 January of year 1 (so on any reading of a
    clock that counts from the Unix epoch): handling the pair makes one send
    call and then one persistence call. *)
Theorem never_reminded_member_gets_reminder
    (row : gmap string (JSON float64))
    (env : world.Env) (pair : MemberPaymentPair) (w : world.World) :
  (forall dateStr,
     row !! "Last Contribution Email Date" = Some (JString dateStr) ->
     dateStr = "" \/ time.Parse_date dateStr = None) ->
  LastContributionEmailDate (Member pair) = time.zero ->
  time.After (world.clock env (world.ticks w)) (time.Date 1 1 15 0 0 0) = true ->
  LastContributionEmailDate (memberOfRow int_of_float64 row) = time.zero
  /\ time.Before (LastContributionEmailDate (Member pair))
       (time.AddDate (world.clock env (world.ticks w)) 0 0 (-14)) = true
  /\ exists data err member err' n,
       sendEmailAndUpdate env pair w =
       (tt, world.mkWorld n
              (world.trace w ++ [world.EvSendEmail data err; world.EvUpdateMember member err'])).
Proof.
  intros Hrow Hzero Hclock.
  assert (Hg : time.Before (LastContributionEmailDate (Member pair))
                 (time.AddDate (world.clock env (world.ticks w)) 0 0 (-14)) = true).
  { rewrite Hzero, AddDate_days. unfold time.Before, time.After in *.
    change (time.abs_ns (time.Date 1 1 15 0 0 0)) with 1209600000000000 in Hclock.
    apply Z.ltb_lt in Hclock. apply Z.ltb_lt. simpl.
    unfold time.secondsPerDay, time.nsPerSecond. lia. }
  split_and!; [|done|].
  - simpl. by apply getDateValue_zero.
  - rewrite (sendEmailAndUpdate_sent env pair w Hg). by eexists _, _, _, _, _.
Qed.

(** C10.  Reading a column of a decoded row never fails.  A column that
    is absent or holds a value of another JSON type reads as the zero
    value: the empty string, [false], [0], no ids, the zero time; so does a
    select column whose object has no numeric ["id"].  Every row yields a
    member, and a row in which every column read is absent or of another
    type yields the member whose fields are all zero values. *)
Theorem field_extraction_total (row : gmap string (JSON float64)) (key : string) :
  ((forall val, row !! key <> Some (JString val)) -> getStringValue row key = "")
  /\ ((forall val, row !! key <> Some (JBool val)) -> getBoolValue row key = false)
  /\ ((forall val, row !! key <> Some (JNumber val)) ->
      getIntValue int_of_float64 row key = 0)
  /\ ((forall val, row !! key <> Some (JObject val)) ->
      getSelectId int_of_float64 row key = 0)
  /\ (forall val, row !! key = Some (JObject val) ->
      (forall value, val !! "id" <> Some (JNumber value)) ->
      getSelectId int_of_float64 row key = 0)
  /\ ((forall val, row !! key <> Some (JArray val)) ->
      getMultiSelectIds int_of_float64 row key = [])
  /\ ((forall val, row !! key <> Some (JString val)) -> getDateValue row key = time.zero)
  /\ (forall members rows,
      length (appendRows int_of_float64 members rows) = (length members + length rows)%nat)
  /\ ((forall val, row !! "Id" <> Some (JNumber val)) ->
      (forall val, row !! "Surname" <> Some (JString val)) ->
      (forall val, row !! "First name" <> Some (JString val)) ->
      (forall val, row !! "E-mail" <> Some (JString val)) ->
      (forall val, row !! "Active MemberShip" <> Some (JBool val)) ->
      (forall val, row !! "Last Payment Date" <> Some (JString val)) ->
      (forall val, row !! "Last Contribution Email Date" <> Some (JString val)) ->
      (forall val, row !! "Number of Contributions Email" <> Some (JNumber val)) ->
      (forall val, row !! "Membership type" <> Some (JObject val)) ->
      (forall val, row !! "Preferred languages" <> Some (JArray val)) ->
      memberOfRow int_of_float64 row =
      mkMember 0 "" "" "" "" "" false time.zero time.zero 0 0 [] "").
Proof.
  assert (Hs : forall k, (forall val, row !! k <> Some (JString val)) ->
                 getStringValue row k = "").
  { intros k Hk. unfold getStringValue.
    destruct (row !! k) as [ [ | | | s | | ] | ]; try done. by destruct (Hk s). }
  assert (Hb : forall k, (forall val, row !! k <> Some (JBool val)) ->
                 getBoolValue row k = false).
  { intros k Hk. unfold getBoolValue.
    destruct (row !! k) as [ [ | b | | | | ] | ]; try done. by destruct (Hk b). }
  assert (Hi : forall k, (forall val, row !! k <> Some (JNumber val)) ->
                 getIntValue int_of_float64 row k = 0).
  { intros k Hk. unfold getIntValue.
    destruct (row !! k) as [ [ | | f | | | ] | ]; try done. by destruct (Hk f). }
  assert (Ho : forall k, (forall val, row !! k <> Some (JObject val)) ->
                 getSelectId int_of_float64 row k = 0).
  { intros k Hk. unfold getSelectId.
    destruct (row !! k) as [ [ | | | | | o ] | ]; try done. by destruct (Hk o). }
  assert (Ha : forall k, (forall val, row !! k <> Some (JArray val)) ->
                 getMultiSelectIds int_of_float64 row k = []).
  { intros k Hk. unfold getMultiSelectIds.
    destruct (row !! k) as [ [ | | | | l | ] | ]; try done. by destruct (Hk l). }
  assert (Hd : forall k, (forall val, row !! k <> Some (JString val)) ->
                 getDateValue row k = time.zero).
  { intros k Hk. apply getDateValue_zero. intros s Hs'. by destruct (Hk s). }
  split_and!; auto.
  - intros val Hval Hid. unfold getSelectId. rewrite Hval.
    destruct (val !! "id") as [ [ | | f | | | ] | ]; try done. by destruct (Hid f).
  - intros members rows. rewrite appendRows_fmap, length_app, length_fmap. done.
  - intros. unfold memberOfRow. rewrite !Hs, !Hb, !Hi, !Ho, !Ha, !Hd by done. done.
Qed.

End MemberRows.

(** ** The statements above on the sample data *)

Section OnSamples.

Import helloasso brevo baserow main.

Local Abbreviation threshold := (time.AddDate (sample.day "2026-10-30") (-1) 0 0).

Lemma classification_total_exclusive_witness :
  sample.adaPair ∈ [sample.adaPair; sample.bobPair]
  /\ ~ (sample.adaPair ∈
          membersToUpdatePaymentNeeded threshold [sample.adaPair; sample.bobPair]
        /\ sample.adaPair ∈
          membersToUpdateStatusUpdate threshold [sample.adaPair; sample.bobPair]).
Proof.
  assert (H : sample.adaPair ∈ [sample.adaPair; sample.bobPair]) by left.
  split; [exact H|].
  exact (proj1 (proj2 (proj2 (proj2 (proj2
    (classification_total_exclusive threshold [sample.adaPair; sample.bobPair]
       sample.adaPair H)))))).
Defined.

Lemma sample_reduced :
  uniquePayments (filteredPayments sample.payments) = [sample.tieA; sample.recent].
Proof. vm_compute. reflexivity. Defined.

Lemma sample_reduced_swapped :
  uniquePayments_of sample.payments [sample.recent; sample.tieA].
Proof. unfold uniquePayments_of. rewrite sample_reduced. apply perm_swap. Defined.

Lemma reduced_one_latest_per_email_witness :
  uniquePayments_of sample.payments [sample.recent; sample.tieA]
  /\ (length (lo.Filter [sample.recent; sample.tieA]
               (fun p => String.eqb (PayerEmail p) "ada@example.org")) <= 1)%nat.
Proof.
  split; [exact sample_reduced_swapped|].
  exact (proj1 (reduced_one_latest_per_email sample.payments
                  [sample.recent; sample.tieA] "ada@example.org" sample_reduced_swapped)).
Defined.

Lemma reducer_idempotent_witness :
  uniquePayments_of sample.payments [sample.recent; sample.tieA]
  /\ uniquePayments_of [sample.recent; sample.tieA] [sample.tieA; sample.recent]
  /\ [sample.tieA; sample.recent] ≡ₚ [sample.recent; sample.tieA].
Proof.
  assert (H : uniquePayments_of [sample.recent; sample.tieA] [sample.tieA; sample.recent]).
  { unfold uniquePayments_of.
    assert (E : uniquePayments (filteredPayments [sample.recent; sample.tieA])
                = [sample.tieA; sample.recent]) by (vm_compute; reflexivity).
    rewrite E. reflexivity. }
  split; [exact sample_reduced_swapped|]. split; [exact H|].
  exact (reducer_idempotent sample.payments [sample.recent; sample.tieA]
           [sample.tieA; sample.recent] sample_reduced_swapped H).
Defined.

Lemma tie_first_seen_wins_witness :
  exists front back,
    lo.group_of (filteredPayments sample.payments) (fun payment => PayerEmail payment)
      (PayerEmail sample.tieA) = front ++ sample.tieA :: back
    /\ Forall (fun q => time.Before (OrderDate q) (OrderDate sample.tieA) = true) front
    /\ Forall (fun q => time.After (OrderDate q) (OrderDate sample.tieA) = false) back.
Proof.
  apply (tie_first_seen_wins sample.payments [sample.recent; sample.tieA] sample.tieA).
  - exact sample_reduced_swapped.
  - right. left.
Defined.

(** The input on which C6 fails as stated: of two payments of one payer with
    the same, latest, order date the reducer keeps the one met first, not
    the one met last. *)
Lemma last_seen_wins_counterexample :
  PayerEmail sample.tieA = PayerEmail sample.tieB
  /\ time.Equal (OrderDate sample.tieA) (OrderDate sample.tieB) = true
  /\ filteredPayments [sample.tieA; sample.tieB] = [sample.tieA; sample.tieB]
  /\ last [sample.tieA; sample.tieB] = Some sample.tieB
  /\ uniquePayments (filteredPayments [sample.tieA; sample.tieB]) = [sample.tieA]
  /\ sample.tieA <> sample.tieB.
Proof.
  split_and!; try (vm_compute; reflexivity).
  intros H. discriminate H.
Qed.

Lemma member_reachable_by_unshadowed_emails_witness :
  membersByEmail ([sample.namesake] ++ sample.ada :: [sample.bob]) !! "ada@work.example"
  = Some sample.ada.
Proof.
  refine (proj2 (member_reachable_by_unshadowed_emails [sample.namesake] [sample.bob]
                   sample.ada "ada@work.example" _ _ _) _).
  - intros H. discriminate H.
  - intros H. discriminate H.
  - right. left.
  - intros later Hl. apply list_elem_of_singleton in Hl. rewrite Hl.
    vm_compute. reflexivity.
Defined.

(** The input on which C8 fails as stated: a member with two non-empty
    alternate emails, followed by a member with the same primary email, is
    not what the index holds under that email. *)
Lemma shadowed_member_counterexample :
  AlternativeEmail1 sample.ada <> ""
  /\ AlternativeEmail2 sample.ada <> ""
  /\ sample.ada ∈ [sample.ada; sample.namesake]
  /\ membersByEmail [sample.ada; sample.namesake] !! Email sample.ada = Some sample.namesake
  /\ membersByEmail [sample.ada; sample.namesake] !! Email sample.ada <> Some sample.ada.
Proof.
  split_and!.
  - intros H. discriminate H.
  - intros H. discriminate H.
  - left.
  - vm_compute. reflexivity.
  - assert (E : membersByEmail [sample.ada; sample.namesake] !! Email sample.ada
                = Some sample.namesake) by (vm_compute; reflexivity).
    rewrite E. intros H. discriminate H.
Qed.

Lemma locale_selection_witness :
  Subject (emailData sample.asciiText
             (set_LastPaymentDate (OrderDate (Payment sample.adaPair))
                (set_ActiveMembership false (Member sample.adaPair)))) = subjectFr.
Proof.
  refine (proj1 (proj1 (locale_selection sample.asciiText sample.adaPair) _)).
  right. split.
  - intros H. vm_compute in H. apply list_elem_of_singleton in H. discriminate H.
  - reflexivity.
Defined.

Lemma never_reminded_member_gets_reminder_witness :
  LastContributionEmailDate (memberOfRow (fun z : Z => z) sample.mistyped) = time.zero
  /\ exists data err member err' n,
       sendEmailAndUpdate sample.env sample.bobPair sample.w0 =
       (tt, world.mkWorld n
              (world.trace sample.w0
               ++ [world.EvSendEmail data err; world.EvUpdateMember member err'])).
Proof.
  refine (let H := never_reminded_member_gets_reminder (fun z : Z => z) sample.mistyped
                     sample.env sample.bobPair sample.w0 _ _ _ in
          conj (proj1 H) (proj2 (proj2 H))).
  - intros dateStr H. vm_compute in H. injection H as <-. right. vm_compute. reflexivity.
  - reflexivity.
  - vm_compute. reflexivity.
Defined.

(** A run on the sample data: Ada's latest payment is more than a year old
    and she was reminded five days ago, so nothing is sent or written for
    her; Bob's payment of May 2026 is on another day than the stored one, so
    his status is updated. *)
Example sample_run :
  runs sample.env sample.payments [sample.ada; sample.bob] sample.w0
    (world.mkWorld 2
       [world.EvUpdateMember
          (set_NumberContributionsEmail 0
             (set_LastPaymentDate (sample.day "2026-05-10")
                (set_ActiveMembership true sample.bob))) None]).
Proof.
  exists [sample.recent; sample.tieA]. split; [exact sample_reduced_swapped|].
  vm_compute. reflexivity.
Qed.

Lemma field_extraction_total_witness :
  getIntValue (fun z : Z => z) sample.mistyped "Id" = 0.
Proof.
  refine (proj1 (proj2 (proj2 (field_extraction_total (fun z : Z => z)
                                 sample.mistyped "Id"))) _).
  intros val H. vm_compute in H. discriminate H.
Defined.

End OnSamples.

(** * Further properties *)

(** ** The join of payments and members *)

Section Join.

Import helloasso baserow main.

Lemma indexedUnder_spec (member : baserow.Member) (email : string) :
  indexedUnder member email = true <->
  email = Email member
  \/ (AlternativeEmail1 member <> "" /\ email = AlternativeEmail1 member)
  \/ (AlternativeEmail2 member <> "" /\ email = AlternativeEmail2 member).
Proof.
  unfold indexedUnder.
  destruct (String.eqb_spec email (Email member));
  destruct (String.eqb_spec (AlternativeEmail1 member) "");
  destruct (String.eqb_spec email (AlternativeEmail1 member));
  destruct (String.eqb_spec (AlternativeEmail2 member) "");
  destruct (String.eqb_spec email (AlternativeEmail2 member));
  simpl; intuition congruence.
Qed.

Lemma elem_of_membersWithPayment (ups : list helloasso.Payment)
    (idx : gmap string baserow.Member) (pair : MemberPaymentPair) :
  pair ∈ membersWithPayment ups idx <->
  Payment pair ∈ ups /\ idx !! PayerEmail (Payment pair) = Some (Member pair).
Proof.
  unfold membersWithPayment, lo.FilterMap. rewrite list_elem_of_omap. split.
  - intros (payment & Hin & Hf).
    destruct (idx !! PayerEmail payment) as [member|] eqn:E; [|done].
    injection Hf as <-. done.
  - intros [Hin Hidx]. exists (Payment pair). split; [done|].
    rewrite Hidx. by destruct pair.
Qed.

Lemma membersByEmail_Some (members : list baserow.Member) (email : string)
    (member : baserow.Member) :
  membersByEmail members !! email = Some member ->
  member ∈ members /\ indexedUnder member email = true.
Proof.
  rewrite lookup_membersByEmail_last. intros Hl.
  apply last_Some_elem_of in Hl. by apply elem_of_Filter in Hl.
Qed.

Lemma membersByEmail_None (members : list baserow.Member) (email : string) :
  membersByEmail members !! email = None <->
  forall member, member ∈ members -> indexedUnder member email = false.
Proof.
  rewrite lookup_membersByEmail_last, last_None. split.
  - intros E member Hin. destruct (indexedUnder member email) eqn:Hi; [|done].
    assert (Hf : member ∈ lo.Filter members (fun m => indexedUnder m email))
      by (by apply elem_of_Filter).
    rewrite E in Hf. by apply elem_of_nil in Hf.
  - intros Hall. destruct (lo.Filter members _) as [|m l] eqn:E; [done|].
    assert (Hf : m ∈ lo.Filter members (fun m => indexedUnder m email))
      by (rewrite E; left).
    apply elem_of_Filter in Hf as [Hin Hi]. rewrite (Hall m Hin) in Hi. done.
Qed.

(** X1.  The matched pairs are exactly the joins by email: the payment of
    a pair is one of the reduced payments, its member is one of the
    fetched members, and the payer email is that member's primary email or
    one of its non-empty alternates; a reduced payment gives a pair as soon
    as some member is registered under its payer email, and none
    otherwise. *)
Theorem matched_pairs_join (members : list baserow.Member) (ups : list helloasso.Payment) :
  let pairs := membersWithPayment ups (membersByEmail members) in
  let registered (member : baserow.Member) (email : string) :=
    email = Email member
    \/ (AlternativeEmail1 member <> "" /\ email = AlternativeEmail1 member)
    \/ (AlternativeEmail2 member <> "" /\ email = AlternativeEmail2 member) in
  (forall pair, pair ∈ pairs ->
     Payment pair ∈ ups /\ Member pair ∈ members
     /\ registered (Member pair) (PayerEmail (Payment pair)))
  /\ (forall payment member, payment ∈ ups -> member ∈ members ->
      registered member (PayerEmail payment) ->
      exists pair, pair ∈ pairs /\ Payment pair = payment)
  /\ (forall payment,
      (forall member, member ∈ members -> ~ registered member (PayerEmail payment)) ->
      forall pair, pair ∈ pairs -> Payment pair <> payment).
Proof.
  cbv zeta. split_and!.
  - intros pair Hp. apply elem_of_membersWithPayment in Hp as [Hin Hidx].
    apply membersByEmail_Some in Hidx as [Hm Hi].
    split_and!; [done..|]. by apply indexedUnder_spec.
  - intros payment member Hin Hm Hreg.
    destruct (membersByEmail members !! PayerEmail payment) as [holder|] eqn:E.
    + exists (mkPair holder payment). split; [|done].
      by apply elem_of_membersWithPayment.
    + rewrite membersByEmail_None in E. apply indexedUnder_spec in Hreg.
      rewrite (E member Hm) in Hreg. done.
  - intros payment Hnone pair Hp <-.
    apply elem_of_membersWithPayment in Hp as [_ Hidx].
    apply membersByEmail_Some in Hidx as [Hm Hi].
    apply indexedUnder_spec in Hi. by apply (Hnone _ Hm).
Qed.

(** X2.  Every reduced payment is either matched or counted by
    [generateStats] as a payment entry without member: the two numbers add
    up to the number of reduced payments. *)
Theorem matched_plus_unmatched (members : list baserow.Member)
    (pbe : gmap string helloasso.Payment) (ups : list helloasso.Payment)
    (idx : gmap string baserow.Member) :
  (length (membersWithPayment ups idx)
   + stats.paymentEntryWithoutMember (stats.generateStats members pbe ups idx)
   = length ups)%nat.
Proof.
  unfold stats.generateStats, membersWithPayment, lo.FilterMap, lo.Filter. simpl.
  induction ups as [|payment ups IH]; [done|].
  csimpl. destruct (idx !! PayerEmail payment); csimpl in *; lia.
Qed.

Lemma NoDup_pair_emails (ups : list helloasso.Payment) (idx : gmap string baserow.Member) :
  NoDup (PayerEmail <$> ups) ->
  NoDup ((fun pair => PayerEmail (Payment pair)) <$> membersWithPayment ups idx).
Proof.
  unfold membersWithPayment, lo.FilterMap.
  induction ups as [|payment ups IH]; intros Hnd; [constructor|].
  rewrite fmap_cons in Hnd. apply NoDup_cons in Hnd as [Hnotin Hnd].
  simpl. destruct (idx !! PayerEmail payment) as [member|]; [|by apply IH].
  simpl. apply NoDup_cons. split; [|by apply IH].
  intros Hin. apply list_elem_of_fmap in Hin as (pair & Hemail & Hpair).
  apply (elem_of_membersWithPayment ups idx pair) in Hpair as [Hpay _].
  apply Hnotin. simpl in Hemail. rewrite Hemail. by apply list_elem_of_fmap_2.
Qed.

Lemma length_Filter_disjoint {T} (l : list T) (p q : T -> bool) :
  (forall x, p x && q x = false) ->
  (length (lo.Filter l p) + length (lo.Filter l q) <= length l)%nat.
Proof.
  intros Hpq. unfold lo.Filter. induction l as [|a l IH]; [done|].
  simpl. specialize (Hpq a). destruct (p a), (q a); simpl in *; try done; lia.
Qed.

Lemma NoDup_Filter {T} (l : list T) (p : T -> bool) : NoDup l -> NoDup (lo.Filter l p).
Proof.
  induction l as [|a l IH]; intros Hnd; [constructor|].
  apply NoDup_cons in Hnd as [Hnotin Hnd].
  unfold lo.Filter. simpl. destruct (p a); [|by apply IH].
  apply NoDup_cons. split; [|by apply IH].
  intros Hin. apply (elem_of_Filter l p a) in Hin as [Hin _]. done.
Qed.

Lemma length_membersWithPayment (ups : list helloasso.Payment)
    (idx : gmap string baserow.Member) :
  (length (membersWithPayment ups idx) <= length ups)%nat.
Proof.
  unfold membersWithPayment, lo.FilterMap.
  induction ups as [|payment ups IH]; [done|].
  csimpl. destruct (idx !! PayerEmail payment); csimpl in *; lia.
Qed.

(** X3.  Whatever order the reduced payments come in, no two matched pairs
    share a payer email, so no pair occurs twice; the pairs to remind and
    the pairs to update are without repetition and have no pair in common,
    and together they are at most as many as the reduced payments. *)
Theorem pairs_handled_at_most_once (payments ups : list helloasso.Payment)
    (idx : gmap string baserow.Member) (oneYearAgo : time.Time) :
  uniquePayments_of payments ups ->
  let pairs := membersWithPayment ups idx in
  let needed := membersToUpdatePaymentNeeded oneYearAgo pairs in
  let update := membersToUpdateStatusUpdate oneYearAgo pairs in
  NoDup ((fun pair => PayerEmail (Payment pair)) <$> pairs)
  /\ NoDup pairs /\ NoDup needed /\ NoDup update
  /\ (forall pair, pair ∈ needed -> pair ∉ update)
  /\ (length needed + length update <= length ups)%nat.
Proof.
  intros Hups. cbv zeta.
  assert (Hnd : NoDup ((fun pair => PayerEmail (Payment pair))
                         <$> membersWithPayment ups idx)).
  { apply NoDup_pair_emails. unfold uniquePayments_of in Hups. rewrite Hups.
    apply uniquePayments_NoDup_email. }
  assert (Hnd' : NoDup (membersWithPayment ups idx)) by (by apply NoDup_fmap_1 in Hnd).
  split_and!; try done.
  - by apply NoDup_Filter.
  - by apply NoDup_Filter.
  - intros pair H1 H2.
    apply elem_of_Filter in H1 as [_ H1]. apply elem_of_Filter in H2 as [_ H2].
    unfold paymentNeeded in H1. unfold statusUpdate in H2. rewrite H1 in H2. done.
  - etransitivity; [|apply (length_membersWithPayment ups idx)].
    apply length_Filter_disjoint. intros pair. unfold paymentNeeded, statusUpdate.
    by destruct (time.Before _ _).
Qed.

End Join.

(** ** The two passes of a run *)

Section Passes.

Import helloasso brevo baserow main.

Context (env : world.Env).

Local Abbreviation prepared pair :=
  (set_LastPaymentDate (OrderDate (Payment pair)) (set_ActiveMembership false (Member pair))).

(** The member [updateValidMembers] writes for a pair. *)
Local Abbreviation written pair :=
  (set_NumberContributionsEmail 0
     (set_LastPaymentDate (OrderDate (Payment pair))
        (set_ActiveMembership true (Member pair)))).

Lemma newEvents_app (w w' : world.World) (evs : list world.Event) :
  world.trace w' = world.trace w ++ evs -> effects.newEvents w w' = evs.
Proof. intros E. unfold effects.newEvents. rewrite E. by rewrite drop_app_length. Qed.

Lemma updateValidMembers_run (pair : MemberPaymentPair) (w : world.World) :
  updateValidMembers env pair w =
  (tt, world.mkWorld (world.ticks w)
         (world.trace w ++
          [world.EvUpdateMember (written pair)
             (world.baserow_reply env (length (world.trace w)) (written pair))])).
Proof. reflexivity. Qed.

Lemma ForEach_cons {T} (x : T) (l : list T) (f : T -> world.M unit) (w : world.World) :
  lo.ForEach (x :: l) f w = lo.ForEach l f (f x w).2.
Proof. simpl. unfold world.bind. by destruct (f x w) as [[] w1]. Qed.

(** What an iteration adds to the trace comes from its items, one after
    the other. *)
Lemma ForEach_events {T} (f : T -> world.M unit) (Q : T -> world.Event -> Prop)
    (l : list T) :
  (forall x w, x ∈ l ->
     exists evs, world.trace (f x w).2 = world.trace w ++ evs /\ Forall (Q x) evs) ->
  forall w,
    exists evs, world.trace (lo.ForEach l f w).2 = world.trace w ++ evs
                /\ Forall (fun ev => exists x, x ∈ l /\ Q x ev) evs.
Proof.
  induction l as [|x l IH]; intros Hf w.
  - exists []. simpl. by rewrite app_nil_r.
  - rewrite ForEach_cons.
    destruct (Hf x w) as (evs1 & E1 & H1); [left|].
    destruct (IH (fun y w Hy => Hf y w (list_elem_of_further _ _ _ Hy)) (f x w).2)
      as (evs2 & E2 & H2).
    exists (evs1 ++ evs2). split.
    + by rewrite E2, E1, app_assoc.
    + apply Forall_app. split.
      * eapply Forall_impl; [exact H1|]. intros ev Hev. exists x. split; [left|done].
      * eapply Forall_impl; [exact H2|]. intros ev (y & Hy & Hev).
        exists y. split; [by right|done].
Qed.

(** X4.  The status pass writes every pair it is given exactly once and in
    order, whatever Baserow answers: the member goes out active, with the
    order date as last payment date and a reminder count of zero.  It reads
    no clock and sends no mail. *)
Theorem status_pass_writes_each_pair_once (pairs : list MemberPaymentPair)
    (w : world.World) :
  let w' := (lo.ForEach pairs (updateValidMembers env) w).2 in
  world.ticks w' = world.ticks w
  /\ Forall2
       (fun pair ev =>
          exists member err,
            ev = world.EvUpdateMember member err
            /\ ActiveMembership member = true
            /\ LastPaymentDate member = OrderDate (Payment pair)
            /\ NumberContributionsEmail member = 0
            /\ LastContributionEmailDate member = LastContributionEmailDate (Member pair)
            /\ effects.sameIdentity (Member pair) member)
       pairs (effects.newEvents w w').
Proof.
  cbv zeta. revert w. induction pairs as [|pair pairs IH]; intros w.
  - simpl. split; [done|]. unfold effects.newEvents. rewrite drop_all. constructor.
  - rewrite ForEach_cons, updateValidMembers_run. simpl.
    set (w1 := world.mkWorld _ _). destruct (IH w1) as [Ht Hev].
    split; [by rewrite Ht|].
    unfold effects.newEvents in *. subst w1. simpl in *.
    assert (Hpre : exists evs, world.trace
        (lo.ForEach pairs (updateValidMembers env)
           (world.mkWorld (world.ticks w)
              (world.trace w ++
               [world.EvUpdateMember (written pair)
                  (world.baserow_reply env (length (world.trace w)) (written pair))]))).2
        = (world.trace w ++
               [world.EvUpdateMember (written pair)
                  (world.baserow_reply env (length (world.trace w)) (written pair))])
          ++ evs).
    { destruct (ForEach_events (updateValidMembers env) (fun _ _ => True) pairs) with
        (w := world.mkWorld (world.ticks w)
              (world.trace w ++
               [world.EvUpdateMember (written pair)
                  (world.baserow_reply env (length (world.trace w)) (written pair))]))
        as (evs & E & _).
      - intros x w0 _. rewrite updateValidMembers_run. simpl. eexists. split; [done|].
        by apply Forall_forall.
      - by exists evs. }
    destruct Hpre as (evs & E). rewrite E in Hev |- *.
    rewrite drop_app_length in Hev. rewrite <- app_assoc, drop_app_length. simpl.
    constructor; [|done].
    eexists _, _. split; [reflexivity|]. by repeat split.
Qed.

Lemma sendEmailAndUpdate_block (pair : MemberPaymentPair) (w : world.World) :
  exists block,
    world.trace (sendEmailAndUpdate env pair w).2 = world.trace w ++ block
    /\ effects.reminderBlock env pair block
    /\ (world.ticks w < world.ticks (sendEmailAndUpdate env pair w).2)%nat.
Proof.
  destruct (time.Before (LastContributionEmailDate (Member pair))
              (time.AddDate (world.clock env (world.ticks w)) 0 0 (-14))) eqn:Hg.
  - rewrite (sendEmailAndUpdate_sent env pair w Hg). simpl.
    eexists. split; [reflexivity|]. split.
    + right. eexists _, _, _. split; [reflexivity|].
      destruct (world.brevo_reply env _ _); simpl; repeat split; by eexists.
    + destruct (world.brevo_reply env _ _); lia.
  - rewrite (sendEmailAndUpdate_suppressed env pair w Hg). simpl.
    exists []. rewrite app_nil_r. split; [done|]. split; [by left|lia].
Qed.

(** X5.  In the reminder pass every pair adds to the trace either nothing
    or one send immediately followed by one write of the same member, in
    the order of the pairs; an error of either service stops nothing, the
    clock is read at least once per pair. *)
Theorem reminder_pass_send_then_write (pairs : list MemberPaymentPair) (w : world.World) :
  let w' := (lo.ForEach pairs (sendEmailAndUpdate env) w).2 in
  exists blocks,
    effects.newEvents w w' = concat blocks
    /\ Forall2
         (fun pair block =>
            block = []
            \/ exists err member err',
                block = [world.EvSendEmail (emailData (world.text env) (prepared pair)) err;
                         world.EvUpdateMember member err']
                /\ ActiveMembership member = false
                /\ LastPaymentDate member = OrderDate (Payment pair)
                /\ effects.sameIdentity (Member pair) member)
         pairs blocks
    /\ (world.ticks w + length pairs <= world.ticks w')%nat.
Proof.
  cbv zeta.
  enough (H : exists blocks,
             world.trace (lo.ForEach pairs (sendEmailAndUpdate env) w).2
               = world.trace w ++ concat blocks
             /\ Forall2 (effects.reminderBlock env) pairs blocks
             /\ (world.ticks w + length pairs
                 <= world.ticks (lo.ForEach pairs (sendEmailAndUpdate env) w).2)%nat).
  { destruct H as (blocks & E & Hb & Ht). exists blocks.
    split; [by apply newEvents_app|]. split; [|done].
    eapply Forall2_impl; [exact Hb|]. intros pair block [->|Hblock]; [by left|right].
    destruct Hblock as (err & member & err' & ? & ? & ? & ? & _). by eexists _, _, _. }
  revert w. induction pairs as [|pair pairs IH]; intros w.
  - exists []. simpl. rewrite app_nil_r. split; [done|]. split; [constructor|lia].
  - rewrite ForEach_cons.
    destruct (sendEmailAndUpdate_block pair w) as (block & E1 & Hb & Ht).
    destruct (IH (sendEmailAndUpdate env pair w).2) as (blocks & E2 & Hbs & Hts).
    exists (block :: blocks). split; [|split].
    + simpl. by rewrite E2, E1, app_assoc.
    + by constructor.
    + simpl. lia.
Qed.

Lemma reconcile_unfold (ups : list helloasso.Payment) (members : list baserow.Member)
    (w : world.World) :
  let pairs := membersWithPayment ups (membersByEmail members) in
  let oneYearAgo := time.AddDate (world.clock env (world.ticks w)) (-1) 0 0 in
  reconcile env ups members w =
  lo.ForEach (membersToUpdateStatusUpdate oneYearAgo pairs) (updateValidMembers env)
    (lo.ForEach (membersToUpdatePaymentNeeded oneYearAgo pairs) (sendEmailAndUpdate env)
       (world.mkWorld (S (world.ticks w)) (world.trace w))).2.
Proof.
  cbv zeta. unfold reconcile, world.bind, world.Now. simpl.
  by destruct (lo.ForEach _ (sendEmailAndUpdate env) _) as [[] w2].
Qed.

(** X6.  When no member is registered under the payer email of any reduced
    payment (in particular when there are no payments or no members), a run
    reads the clock once and calls neither service. *)
Theorem no_match_no_call (ups : list helloasso.Payment) (members : list baserow.Member)
    (w : world.World) :
  (forall payment member, payment ∈ ups -> member ∈ members ->
     indexedUnder member (PayerEmail payment) = false) ->
  reconcile env ups members w
  = (tt, world.mkWorld (S (world.ticks w)) (world.trace w)).
Proof.
  intros Hnone.
  assert (E : membersWithPayment ups (membersByEmail members) = []).
  { destruct (membersWithPayment ups (membersByEmail members)) as [|pair l] eqn:E; [done|].
    assert (Hp : pair ∈ membersWithPayment ups (membersByEmail members))
      by (rewrite E; left).
    apply elem_of_membersWithPayment in Hp as [Hin Hidx].
    apply membersByEmail_Some in Hidx as [Hm Hi].
    rewrite (Hnone _ _ Hin Hm) in Hi. done. }
  rewrite reconcile_unfold. cbv zeta. rewrite E. reflexivity.
Qed.

Lemma ToEmail_emailData (U : world.GoText) (member : baserow.Member) :
  ToEmail (emailData U member) = Email member.
Proof. unfold emailData. by destruct (isFrench member). Qed.

(** The events of a whole run, with the pair each one comes from. *)
Lemma reconcile_events (ups : list helloasso.Payment) (members : list baserow.Member)
    (w : world.World) :
  let pairs := membersWithPayment ups (membersByEmail members) in
  let oneYearAgo := time.AddDate (world.clock env (world.ticks w)) (-1) 0 0 in
  Forall
    (fun ev =>
       exists pair, pair ∈ pairs
         /\ ((paymentNeeded oneYearAgo pair = true
              /\ exists block, effects.reminderBlock env pair block /\ ev ∈ block)
             \/ (statusUpdate oneYearAgo pair = true
                 /\ exists err, ev = world.EvUpdateMember (written pair) err)))
    (effects.newEvents w (reconcile env ups members w).2).
Proof.
  cbv zeta. rewrite reconcile_unfold. cbv zeta.
  set (pairs := membersWithPayment ups (membersByEmail members)).
  set (oneYearAgo := time.AddDate (world.clock env (world.ticks w)) (-1) 0 0).
  set (w1 := world.mkWorld (S (world.ticks w)) (world.trace w)).
  destruct (ForEach_events (sendEmailAndUpdate env)
              (fun pair ev => exists block, effects.reminderBlock env pair block /\ ev ∈ block)
              (membersToUpdatePaymentNeeded oneYearAgo pairs)) with (w := w1)
    as (evs1 & E1 & H1).
  { intros pair w0 _. destruct (sendEmailAndUpdate_block pair w0) as (block & E & Hb & _).
    exists block. split; [done|]. apply Forall_forall. intros ev Hev. by exists block. }
  destruct (ForEach_events (updateValidMembers env)
              (fun pair ev => exists err, ev = world.EvUpdateMember (written pair) err)
              (membersToUpdateStatusUpdate oneYearAgo pairs))
    with (w := (lo.ForEach (membersToUpdatePaymentNeeded oneYearAgo pairs)
                  (sendEmailAndUpdate env) w1).2)
    as (evs2 & E2 & H2).
  { intros pair w0 _. rewrite updateValidMembers_run. simpl.
    eexists. split; [reflexivity|]. constructor; [by eexists|constructor]. }
  rewrite (newEvents_app w _ (evs1 ++ evs2)).
  2: { rewrite E2, E1. simpl. by rewrite app_assoc. }
  apply Forall_app. split.
  - eapply Forall_impl; [exact H1|]. intros ev (pair & Hin & Hev).
    apply elem_of_Filter in Hin as [Hin Hp]. exists pair. split; [done|]. by left.
  - eapply Forall_impl; [exact H2|]. intros ev (pair & Hin & Hev).
    apply elem_of_Filter in Hin as [Hin Hp]. exists pair. split; [done|]. by right.
Qed.

(** X7.  A run never writes a member that was not fetched and never
    changes who a member is: every write carries the id, names, emails,
    membership type, languages and country of one of the fetched members,
    and every mail goes to the primary email of one of them. *)
Theorem run_keeps_identity (ups : list helloasso.Payment) (members : list baserow.Member)
    (w : world.World) :
  Forall
    (fun ev =>
       match ev with
       | world.EvUpdateMember written _ =>
           exists member, member ∈ members /\ effects.sameIdentity member written
       | world.EvSendEmail data _ =>
           exists member, member ∈ members /\ ToEmail data = Email member
       end)
    (effects.newEvents w (reconcile env ups members w).2).
Proof.
  eapply Forall_impl; [apply reconcile_events|]. cbv beta.
  intros ev (pair & Hin & Hev).
  apply elem_of_membersWithPayment in Hin as [_ Hidx].
  apply membersByEmail_Some in Hidx as [Hm _].
  destruct Hev as [[_ (block & Hb & Hev)]|[_ (err & ->)]].
  - destruct Hb as [->|(err & member & err' & -> & _ & _ & Hsame & _)].
    { by apply elem_of_nil in Hev. }
    apply elem_of_cons in Hev as [->|Hev].
    { exists (Member pair). split; [done|]. by rewrite ToEmail_emailData. }
    apply list_elem_of_singleton in Hev as ->. by exists (Member pair).
  - exists (Member pair). split; [done|]. by repeat split.
Qed.

(** X8.  A run sends mail only about lapsed payments: every send is the
    message of a matched pair whose order date is strictly before the
    clock reading minus one year and whose member passed the 14-day guard
    on some clock reading. *)
Theorem mail_only_for_lapsed_payments (ups : list helloasso.Payment)
    (members : list baserow.Member) (w : world.World) (data : EmailData)
    (err : option string) :
  world.EvSendEmail data err ∈ effects.newEvents w (reconcile env ups members w).2 ->
  exists pair,
    pair ∈ membersWithPayment ups (membersByEmail members)
    /\ data = emailData (world.text env) (prepared pair)
    /\ time.Before (OrderDate (Payment pair))
         (time.AddDate (world.clock env (world.ticks w)) (-1) 0 0) = true
    /\ exists n, time.Before (LastContributionEmailDate (Member pair))
                   (time.AddDate (world.clock env n) 0 0 (-14)) = true.
Proof.
  intros Hin. pose proof (reconcile_events ups members w) as Hall. cbv zeta in Hall.
  rewrite Forall_forall in Hall. destruct (Hall _ Hin) as (pair & Hp & Hev).
  exists pair. split; [done|].
  destruct Hev as [[Hneed (block & Hb & Hev)]|[_ (err' & Hev)]]; [|done].
  destruct Hb as [->|(err1 & member & err2 & -> & _ & _ & _ & Hguard)].
  { by apply elem_of_nil in Hev. }
  apply elem_of_cons in Hev as [Hev|Hev].
  - injection Hev as -> _. done.
  - apply list_elem_of_singleton in Hev. done.
Qed.

End Passes.

(** ** A pair held back by the guard, in a run *)

Section Suppression.

Import helloasso brevo baserow main.


End Suppression.

(** ** Statistics *)

Section Stats.

Import helloasso baserow main.

Lemma lookup_KeyBy_None {V} (l : list V) (f : V -> string) (k : string) :
  lo.KeyBy l f !! k = None <-> forall v, v ∈ l -> f v <> k.
Proof.
  unfold lo.KeyBy. induction l as [|x l IH] using rev_ind.
  - split; [intros _ v Hv; by apply elem_of_nil in Hv|done].
  - rewrite foldl_app. simpl. rewrite lookup_insert. case_decide as Hk.
    + split; [done|]. intros Hall. destruct (Hall x); [|done].
      apply elem_of_app. right. left.
    + rewrite IH. split.
      * intros Hall v Hv. apply elem_of_app in Hv as [Hv|Hv]; [by apply Hall|].
        apply list_elem_of_singleton in Hv as ->. done.
      * intros Hall v Hv. apply Hall. apply elem_of_app. by left.
Qed.

Lemma Filter_ext {T} (l : list T) (p q : T -> bool) :
  (forall x, x ∈ l -> p x = q x) -> lo.Filter l p = lo.Filter l q.
Proof.
  unfold lo.Filter. induction l as [|a l IH]; intros H; [done|].
  simpl. rewrite (H a) by left. rewrite IH; [done|].
  intros x Hx. apply H. by right.
Qed.

Lemma length_Filter_le {T} (l : list T) (p : T -> bool) :
  (length (lo.Filter l p) <= length l)%nat.
Proof.
  unfold lo.Filter. induction l as [|a l IH]; [done|].
  simpl. destruct (p a); simpl; lia.
Qed.

(** X10.  [generateStats] looks a member up by its primary email only: the
    members without payment entry are those whose primary email is the
    payer email of no reduced payment, also when an alternate email
    matched.  The individual and the organization members among them are
    counted apart and never exceed their number, which never exceeds the
    number of members. *)
Theorem stats_by_primary_email (members : list baserow.Member)
    (ups : list helloasso.Payment) (idx : gmap string baserow.Member) :
  let counts := stats.generateStats members (paymentsByEmail ups) ups idx in
  stats.membersWithoutPaymentEntry counts
  = length (lo.Filter members (fun member =>
              forallb (fun payment =>
                         negb (String.eqb (PayerEmail payment) (Email member))) ups))
  /\ (stats.membersWithoutPaymentEntryIndividual counts
      + stats.membersWithoutPaymentEntryOrganization counts
      <= stats.membersWithoutPaymentEntry counts)%nat
  /\ (stats.membersWithoutPaymentEntry counts <= length members)%nat.
Proof.
  cbv zeta. unfold stats.generateStats. simpl. split_and!.
  - f_equal. apply Filter_ext. intros member _.
    unfold paymentsByEmail.
    destruct (lo.KeyBy ups _ !! Email member) as [payment|] eqn:E.
    + symmetry. apply not_true_is_false. intros Hall.
      rewrite forallb_forall in Hall.
      assert (Hnone : lo.KeyBy ups (fun payment => PayerEmail payment) !! Email member
                      = None).
      { apply lookup_KeyBy_None. intros v Hv Heq.
        apply list_elem_of_In in Hv. specialize (Hall v Hv).
        rewrite Heq, String.eqb_refl in Hall. done. }
      congruence.
    + symmetry. apply forallb_forall. intros v Hv. apply list_elem_of_In in Hv.
      rewrite lookup_KeyBy_None in E. specialize (E v Hv).
      apply negb_true_iff. by apply String.eqb_neq.
  - apply length_Filter_disjoint. intros member.
    unfold IndividualTypeId, OrganizationTypeId.
    destruct (Z.eqb_spec (MembershipType member) 2521) as [->|]; [done|].
    done.
  - apply length_Filter_le.
Qed.

End Stats.

(** ** Dates written and read back *)

Section DateRoundTrip.

Import time dates.

Lemma appendInt4_digits x : 0 <= x <= 9999 -> appendInt x 4 = digits4 x.
Proof.
  intros Hx. apply String.eqb_eq.
  assert (H : all_from (Z.to_nat 10000) 0 appendInt4_ok = true)
    by (vm_compute; reflexivity).
  apply (all_from_spec _ _ _ H x). lia.
Qed.

Lemma appendInt2_digits x : 0 <= x <= 99 -> appendInt x 2 = digits2 x.
Proof.
  intros Hx. apply String.eqb_eq.
  assert (H : all_from (Z.to_nat 100) 0 appendInt2_ok = true)
    by (vm_compute; reflexivity).
  apply (all_from_spec _ _ _ H x). lia.
Qed.

Lemma digit_spec k : 0 <= k <= 9 -> isDigit (digit k) = true /\ digitVal (digit k) = k.
Proof.
  intros Hk.
  assert (H : all_from (Z.to_nat 10) 0 digit_ok = true) by (vm_compute; reflexivity).
  assert (Hd : digit_ok k = true) by (apply (all_from_spec _ _ _ H k); lia).
  unfold digit_ok in Hd. apply andb_prop in Hd as [? Hv]. by apply Z.eqb_eq in Hv.
Qed.

Lemma civil_day_ok_cycle : all_from (Z.to_nat 146097) (-306) civil_day_ok = true.
Proof. vm_compute. reflexivity. Qed.

Lemma daysIn_shift m y e : daysIn m (y + 400 * e) = daysIn m y.
Proof.
  unfold daysIn, isLeap.
  replace ((y + 400 * e) mod 4) with (y mod 4)
    by (Z.to_euclidean_division_equations; lia).
  replace ((y + 400 * e) mod 100) with (y mod 100)
    by (Z.to_euclidean_division_equations; lia).
  replace ((y + 400 * e) mod 400) with (y mod 400)
    by (Z.to_euclidean_division_equations; lia).
  done.
Qed.

Lemma civil_day_ok_all n : civil_day_ok n = true.
Proof.
  pose (e := (n + 306) / 146097).
  pose (r := n - 146097 * e).
  assert (Hr : -306 <= r < -306 + Z.of_nat (Z.to_nat 146097)).
  { rewrite Z2Nat.id by lia. unfold r, e. Z.to_euclidean_division_equations. lia. }
  pose proof (all_from_spec _ _ _ civil_day_ok_cycle r Hr) as H.
  replace n with (r + 146097 * e) by (unfold r; lia).
  unfold civil_day_ok in *. rewrite civil_shift.
  destruct (civil r) as [[y m] d]. by rewrite daysIn_shift.
Qed.

(** What [civil] returns is a date of the calendar. *)
Lemma civil_valid n y m d :
  civil n = (y, m, d) ->
  daysSinceYear1 y m d = n /\ 1 <= m <= 12 /\ 1 <= d <= daysIn m y /\ d <= 31.
Proof.
  intros E. pose proof (civil_ok_all n) as H1. pose proof (civil_day_ok_all n) as H2.
  unfold civil_ok in H1. unfold civil_day_ok in H2. rewrite E in H1, H2.
  repeat (apply andb_prop in H1 as [H1 ?]). lia.
Qed.

(** [Parse_date] on ten characters that are digits and dashes. *)
Lemma Parse_date_digits (y m d : Z) :
  0 <= y <= 9999 -> 1 <= m <= 12 -> 1 <= d <= daysIn m y -> d <= 31 ->
  Parse_date ((digits4 y +:+ "-" +:+ digits2 m +:+ "-" +:+ digits2 d)%string)
  = Some (Date y m d 0 0 0).
Proof.
  intros Hy Hm Hd Hd'. unfold digits4, digits2.
  cbv beta iota delta [String.append]. unfold Parse_date.
  destruct (digit_spec (y / 1000)) as [E1 V1]; [Z.to_euclidean_division_equations; lia|].
  destruct (digit_spec (y / 100 mod 10)) as [E2 V2]; [Z.to_euclidean_division_equations; lia|].
  destruct (digit_spec (y / 10 mod 10)) as [E3 V3]; [Z.to_euclidean_division_equations; lia|].
  destruct (digit_spec (y mod 10)) as [E4 V4]; [Z.to_euclidean_division_equations; lia|].
  destruct (digit_spec (m / 10)) as [E5 V5]; [Z.to_euclidean_division_equations; lia|].
  destruct (digit_spec (m mod 10)) as [E6 V6]; [Z.to_euclidean_division_equations; lia|].
  destruct (digit_spec (d / 10)) as [E7 V7]; [Z.to_euclidean_division_equations; lia|].
  destruct (digit_spec (d mod 10)) as [E8 V8]; [Z.to_euclidean_division_equations; lia|].
  cbv beta iota. cbn [forallb]. rewrite E1, E2, E3, E4, E5, E6, E7, E8, V1, V2, V3, V4, V5, V6, V7, V8.
  rewrite !bool_decide_eq_true_2 by done. cbn [andb].
  replace (y / 1000 * 1000 + y / 100 mod 10 * 100 + y / 10 mod 10 * 10 + y mod 10)
    with y by (Z.to_euclidean_division_equations; lia).
  replace (m / 10 * 10 + m mod 10) with m by (Z.to_euclidean_division_equations; lia).
  replace (d / 10 * 10 + d mod 10) with d by (Z.to_euclidean_division_equations; lia).
  destruct (Z.leb_spec 1 m); [|lia]. destruct (Z.leb_spec m 12); [|lia].
  destruct (Z.leb_spec 1 d); [|lia]. destruct (Z.leb_spec d (daysIn m y)); [|lia].
  done.
Qed.

Lemma Format_date_digits (t : Time) (y m d : Z) :
  date t = (y, m, d) -> 0 <= y <= 9999 ->
  Format_date t = (digits4 y +:+ "-" +:+ digits2 m +:+ "-" +:+ digits2 d)%string
  /\ 1 <= m <= 12 /\ 1 <= d <= daysIn m y /\ d <= 31
  /\ daysSinceYear1 y m d = localSeconds t / secondsPerDay.
Proof.
  intros E Hy. unfold Format_date. rewrite E. unfold date in E.
  apply civil_valid in E as (Hn & Hm & Hd & Hd').
  assert (Hd1 : 1 <= d) by lia.
  rewrite appendInt4_digits, !appendInt2_digits by lia. done.
Qed.

Lemma Parse_Format_date (t : Time) (y m d : Z) :
  date t = (y, m, d) -> 0 <= y <= 9999 ->
  Parse_date (Format_date t) = Some (dayStartUTC t)
  /\ Format_date (dayStartUTC t) = Format_date t
  /\ Format_date t <> ""%string.
Proof.
  intros E Hy. destruct (Format_date_digits t y m d E Hy) as (EF & Hm & Hd & Hd' & Hn).
  assert (EP : Parse_date (Format_date t) = Some (dayStartUTC t)).
  { rewrite EF, Parse_date_digits by lia. f_equal. unfold Date. cbv zeta.
    rewrite (Z.div_small (m - 1) 12), (Z.mod_small (m - 1) 12) by lia.
    replace (y + 0) with y by lia. replace (m - 1 + 1) with m by lia.
    rewrite Hn. unfold dayStartUTC. f_equal. lia. }
  split; [done|]. split.
  - assert (Ed : date (dayStartUTC t) = (y, m, d)).
    { rewrite <- E. unfold date at 1 2. f_equal.
      unfold localSeconds at 1, dayStartUTC. simpl.
      unfold secondsPerDay, nsPerSecond. Z.to_euclidean_division_equations. lia. }
    unfold Format_date. by rewrite Ed, E.
  - rewrite EF. unfold digits4. done.
Qed.

End DateRoundTrip.

Section StoredDates.

Import helloasso brevo baserow main.

Context {float64 : Type} (int_of_float64 : float64 -> Z).

Lemma Parse_Format_Year (t : time.Time) :
  0 <= dates.Year t <= 9999 ->
  time.Parse_date (time.Format_date t) = Some (dates.dayStartUTC t)
  /\ time.Format_date (dates.dayStartUTC t) = time.Format_date t
  /\ time.Format_date t <> "".
Proof.
  unfold dates.Year. destruct (time.date t) as [[y m] d] eqn:E. intros Hy.
  by apply (Parse_Format_date t y m d).
Qed.

Lemma getDateValue_Format (row : gmap string (JSON float64)) (key : string) (t : time.Time) :
  0 <= dates.Year t <= 9999 ->
  row !! key = Some (JString (time.Format_date t)) ->
  getDateValue row key = dates.dayStartUTC t.
Proof.
  intros Hy Hrow. destruct (Parse_Format_Year t Hy) as (EP & _ & Hne).
  unfold getDateValue. rewrite Hrow, EP. by rewrite bool_decide_eq_true_2.
Qed.

Lemma stores_columns (row : gmap string (JSON float64)) (member : baserow.Member) :
  baserow_api.stores row member ->
  row !! "Active MemberShip" = Some (JBool (ActiveMembership member))
  /\ row !! "Last Payment Date"
     = Some (JString (time.Format_date (LastPaymentDate member)))
  /\ row !! "Last Contribution Email Date"
     = Some (JString (time.Format_date (LastContributionEmailDate member))).
Proof.
  intros Hst. specialize (Hst _ eq_refl). split_and!.
  - apply (Hst "Active MemberShip" (net.VBool _)). left.
  - apply (Hst "Last Payment Date" (net.VString _)). do 2 right. left.
  - apply (Hst "Last Contribution Email Date" (net.VString _)). right. left.
Qed.

(** X11.  What [UpdateMember] writes of a member is what [GetMembers]
    reads back, up to the day: from a row that holds the written columns
    the activity flag comes back as it was and each of the two dates comes
    back as the start, in UTC, of the calendar day it showed, so it formats
    to the same text again; in particular the zero time comes back as the
    zero time.  Years are those a four-digit year can show. *)
Theorem written_member_reads_back (row : gmap string (JSON float64))
    (member : baserow.Member) :
  0 <= dates.Year (LastPaymentDate member) <= 9999 ->
  0 <= dates.Year (LastContributionEmailDate member) <= 9999 ->
  baserow_api.stores row member ->
  let back := memberOfRow int_of_float64 row in
  ActiveMembership back = ActiveMembership member
  /\ LastPaymentDate back = dates.dayStartUTC (LastPaymentDate member)
  /\ LastContributionEmailDate back = dates.dayStartUTC (LastContributionEmailDate member)
  /\ time.Format_date (LastPaymentDate back) = time.Format_date (LastPaymentDate member)
  /\ time.Format_date (LastContributionEmailDate back)
     = time.Format_date (LastContributionEmailDate member)
  /\ (LastContributionEmailDate member = time.zero ->
      LastContributionEmailDate back = time.zero).
Proof.
  intros Hy1 Hy2 Hst. cbv zeta.
  destruct (stores_columns row member Hst) as (Ha & Hp & Hc).
  assert (E1 : LastPaymentDate (memberOfRow int_of_float64 row)
               = dates.dayStartUTC (LastPaymentDate member)).
  { cbn [memberOfRow LastPaymentDate]. by apply getDateValue_Format. }
  assert (E2 : LastContributionEmailDate (memberOfRow int_of_float64 row)
               = dates.dayStartUTC (LastContributionEmailDate member)).
  { cbn [memberOfRow LastContributionEmailDate]. by apply getDateValue_Format. }
  split_and!; try done.
  - cbn [memberOfRow ActiveMembership]. unfold getBoolValue. by rewrite Ha.
  - rewrite E1. by apply Parse_Format_Year.
  - rewrite E2. by apply Parse_Format_Year.
  - intros Hz. rewrite E2, Hz. reflexivity.
Qed.

(** X12.  A status update settles: once Baserow holds what
    [updateValidMembers] wrote for a pair, the member read back and the
    same payment are no longer a pair to update, whatever the threshold. *)
Theorem status_update_settles (oneYearAgo : time.Time) (pair : MemberPaymentPair)
    (row : gmap string (JSON float64)) :
  0 <= dates.Year (OrderDate (Payment pair)) <= 9999 ->
  baserow_api.stores row
    (set_NumberContributionsEmail 0
       (set_LastPaymentDate (OrderDate (Payment pair))
          (set_ActiveMembership true (Member pair)))) ->
  statusUpdate oneYearAgo (mkPair (memberOfRow int_of_float64 row) (Payment pair)) = false.
Proof.
  intros Hy Hst. destruct (stores_columns _ _ Hst) as (Ha & Hp & _).
  cbn [ActiveMembership LastPaymentDate set_NumberContributionsEmail
       set_LastPaymentDate set_ActiveMembership] in Ha, Hp.
  unfold statusUpdate.
  cbn [Member Payment memberOfRow ActiveMembership LastPaymentDate].
  unfold getBoolValue. rewrite Ha. cbn [negb].
  rewrite (getDateValue_Format row _ _ Hy Hp).
  destruct (Parse_Format_Year _ Hy) as (_ & -> & _).
  rewrite String.eqb_refl. simpl. by rewrite andb_false_r.
Qed.

End StoredDates.

(** ** The services *)

Section PaymentsService.

Import helloasso net helloasso_api.

Context (decodeToken : string -> string + TokenResponse).
Context (decodePayments : string -> string + PaymentResponse).
Context (net : Net) (token orgSlug fromDate : string).

Lemma foldl_paymentOf (allPayments : list helloasso.Payment) (data : list Datum) :
  foldl (fun allPayments item => allPayments ++ [paymentOf item]) allPayments data
  = allPayments ++ (paymentOf <$> data).
Proof.
  revert allPayments. induction data as [|item data IH]; intros allPayments; simpl.
  - by rewrite app_nil_r.
  - rewrite IH, <- app_assoc. done.
Qed.

Lemma pageRequests_S (k count : nat) :
  pageRequests token orgSlug fromDate k (S count)
  = pageRequest token orgSlug fromDate (pageIndexAfter k)
    :: pageRequests token orgSlug fromDate (S k) count.
Proof.
  unfold pageRequests. simpl. rewrite Nat.add_0_r. f_equal.
  rewrite <- fmap_S_seq, <- list_fmap_compose. apply list_fmap_ext.
  intros i x _. simpl. by rewrite Nat.add_succ_r.
Qed.

Lemma pageRequests_snoc (k count : nat) :
  pageRequests token orgSlug fromDate k (S count)
  = pageRequests token orgSlug fromDate k count
    ++ [pageRequest token orgSlug fromDate (pageIndexAfter (k + count))].
Proof.
  unfold pageRequests. rewrite seq_S, fmap_app. done.
Qed.

(** The loop goes through pages with entries one request each, keeping
    their payments in order. *)
Lemma paymentPages_served (pages : list PaymentResponse) :
  forall (fuel k : nat) (allPayments : list helloasso.Payment) (log : list Request),
    served decodePayments net token orgSlug fromDate (length log) k pages ->
    paymentPages decodePayments (length pages + fuel) net token orgSlug fromDate
      (pageIndexAfter k) allPayments log
    = paymentPages decodePayments fuel net token orgSlug fromDate
        (pageIndexAfter (k + length pages))
        (allPayments ++ (paymentOf <$> concat (Data <$> pages)))
        (log ++ pageRequests token orgSlug fromDate k (length pages)).
Proof.
  induction pages as [|page pages IH]; intros fuel k allPayments log Hs.
  - simpl. by rewrite Nat.add_0_r, !app_nil_r.
  - destruct Hs as ((body & Hreply & Hdec) & Hdata & Hrest).
    cbn [length Nat.add paymentPages]. unfold Do. rewrite Hreply. simpl negb.
    cbv iota. rewrite Hdec. cbv zeta.
    destruct (Data page) as [|item data] eqn:ED; [done|].
    cbn [length Nat.eqb]. rewrite foldl_paymentOf.
    change (wrap_int (pageIndexAfter k + 1)) with (pageIndexAfter (S k)).
    rewrite IH.
    2: { rewrite length_app. simpl. by rewrite Nat.add_1_r. }
    rewrite pageRequests_S. cbn [fmap list_fmap concat]. rewrite ED.
    rewrite fmap_app, <- !app_assoc. simpl.
    by rewrite Nat.add_succ_r.
Qed.

(** X14.  [GetPayments] returns the payments of all pages up to the first
    page without entries, in the order served, each entry reduced to form
    slug, order date and payer; it asks for the pages one after the other
    from index 1 and asks for nothing after the empty page. *)
Theorem GetPayments_collects_pages (fuel : nat) (log log1 : list Request)
    (pages : list PaymentResponse) (body : string) (final : PaymentResponse) :
  getOAuthToken decodeToken net log = (inr token, log1) ->
  Getenv net "HELLOASSO_ORG_SLUG" = orgSlug -> orgSlug <> "" ->
  Getenv net "HELLOASSO_FROM_DATE" = fromDate -> fromDate <> "" ->
  served decodePayments net token orgSlug fromDate (length log1) 0 pages ->
  RoundTrip net (length log1 + length pages)
    (pageRequest token orgSlug fromDate (pageIndexAfter (length pages)))
    = Replied 200 body ->
  decodePayments body = inr final -> Data final = [] ->
  (length pages < fuel)%nat ->
  GetPayments decodeToken decodePayments fuel net log
  = (Some (inr (paymentOf <$> concat (Data <$> pages))),
     log1 ++ pageRequests token orgSlug fromDate 0 (S (length pages))).
Proof.
  intros Htok Horg Horg' Hfrom Hfrom' Hserved Hreply Hdec Hempty Hfuel.
  unfold GetPayments. rewrite Htok, Horg, Hfrom.
  rewrite !bool_decide_eq_false_2 by done. simpl orb. cbv iota.
  replace fuel with (length pages + S (fuel - S (length pages)))%nat by lia.
  change 1 with (pageIndexAfter 0).
  rewrite (paymentPages_served pages _ 0 [] log1 Hserved).
  cbn [paymentPages]. unfold Do. rewrite length_app.
  assert (El : length (pageRequests token orgSlug fromDate 0 (length pages))
               = length pages).
  { unfold pageRequests. by rewrite length_fmap, length_seq. }
  rewrite El. change (0 + length pages)%nat with (length pages).
  rewrite Hreply. simpl negb. cbv iota.
  rewrite Hdec. cbv zeta. rewrite Hempty. simpl.
  rewrite pageRequests_snoc, app_assoc. done.
Qed.

(** X15.  One page that cannot be had makes [GetPayments] fail: when a
    request is not answered, is answered with another status than 200 or
    with a body that does not decode, the error is returned and the
    payments of the pages before are not. *)
Theorem GetPayments_fails_on_a_page (fuel : nat) (log log1 : list Request)
    (pages : list PaymentResponse) (err : string) :
  getOAuthToken decodeToken net log = (inr token, log1) ->
  Getenv net "HELLOASSO_ORG_SLUG" = orgSlug -> orgSlug <> "" ->
  Getenv net "HELLOASSO_FROM_DATE" = fromDate -> fromDate <> "" ->
  served decodePayments net token orgSlug fromDate (length log1) 0 pages ->
  (let reply :=
     RoundTrip net (length log1 + length pages)
       (pageRequest token orgSlug fromDate (pageIndexAfter (length pages))) in
   reply = Failed err
   \/ (exists status body,
         reply = Replied status body /\ status <> 200
         /\ err = statusError "failed to get payments" body status)
   \/ (exists body, reply = Replied 200 body /\ decodePayments body = inl err)) ->
  (length pages < fuel)%nat ->
  GetPayments decodeToken decodePayments fuel net log
  = (Some (inl err), log1 ++ pageRequests token orgSlug fromDate 0 (S (length pages))).
Proof.
  intros Htok Horg Horg' Hfrom Hfrom' Hserved Hreply Hfuel. cbv zeta in Hreply.
  unfold GetPayments. rewrite Htok, Horg, Hfrom.
  rewrite !bool_decide_eq_false_2 by done. simpl orb. cbv iota.
  replace fuel with (length pages + S (fuel - S (length pages)))%nat by lia.
  change 1 with (pageIndexAfter 0).
  rewrite (paymentPages_served pages _ 0 [] log1 Hserved).
  cbn [paymentPages]. unfold Do. rewrite length_app.
  assert (El : length (pageRequests token orgSlug fromDate 0 (length pages))
               = length pages).
  { unfold pageRequests. by rewrite length_fmap, length_seq. }
  rewrite El. change (0 + length pages)%nat with (length pages).
  rewrite pageRequests_snoc, app_assoc. change (0 + length pages)%nat with (length pages).
  destruct Hreply as [->|[(status & body & -> & Hne & ->)|(body & -> & Hdec)]].
  - done.
  - apply Z.eqb_neq in Hne. rewrite Hne. done.
  - simpl. rewrite Hdec. done.
Qed.

(** X16.  Missing settings of HelloAsso: without client id or secret
    [GetPayments] fails before any request; the organization and the start
    date are looked at only after the token exchange, so without them it
    fails after exactly that one request. *)
Theorem GetPayments_settings (fuel : nat) (log : list Request) :
  (Getenv net "HELLOASSO_API_ID" = "" \/ Getenv net "HELLOASSO_API_SECRET" = "" ->
   GetPayments decodeToken decodePayments fuel net log
   = (Some (inl "HELLOASSO_API_ID and HELLOASSO_API_SECRET environment variables must be set"),
      log))
  /\ (forall log1,
        getOAuthToken decodeToken net log = (inr token, log1) ->
        Getenv net "HELLOASSO_ORG_SLUG" = "" \/ Getenv net "HELLOASSO_FROM_DATE" = "" ->
        GetPayments decodeToken decodePayments fuel net log
        = (Some (inl "HELLOASSO_ORG_SLUG and HELLOASSO_FROM_DATE environment variables must be set"),
           log1)
        /\ log1 = log ++ [tokenRequest (Getenv net "HELLOASSO_API_ID")
                            (Getenv net "HELLOASSO_API_SECRET")]).
Proof.
  split.
  - intros Hmissing. unfold GetPayments, getOAuthToken.
    destruct Hmissing as [-> | ->]; simpl; [done|].
    by rewrite orb_true_r.
  - intros log1 Htok Hmissing. split.
    + unfold GetPayments. rewrite Htok.
      destruct Hmissing as [-> | ->]; simpl; [done|]. by rewrite orb_true_r.
    + unfold getOAuthToken, Do in Htok.
      destruct (bool_decide _ || bool_decide _); [done|].
      destruct (RoundTrip net _ _) as [e|e|status body]; [done..|].
      destruct (negb _); [done|]. destruct (decodeToken body); [done|].
      by injection Htok as _ <-.
Qed.

End PaymentsService.

Section PageIndex.

Import helloasso_api.

Lemma pageIndexAfter_small (k : nat) :
  Z.of_nat k < 2 ^ 63 - 1 -> pageIndexAfter k = Z.of_nat k + 1.
Proof.
  induction k as [|k IH]; intros Hk; [done|].
  change (pageIndexAfter (S k)) with (wrap_int (pageIndexAfter k + 1)).
  rewrite IH by lia. unfold wrap_int. Z.to_euclidean_division_equations. lia.
Qed.

End PageIndex.

Section MembersService.

Import baserow net baserow_api.

Context {float64 : Type} (int_of_float64 : float64 -> Z).
Local Abbreviation Page := (@BaserowResponse float64).

Context (decode : string -> string + Page).
Context (net : Net) (apiToken : string).

Lemma addressAfter_cons (apiURL : string) (page : Page) (rest : list Page) :
  addressAfter apiURL (page :: rest) = addressAfter (Next page) rest.
Proof.
  unfold addressAfter. rewrite fmap_cons.
  destruct rest as [|page' rest]; [done|].
  rewrite fmap_cons, last_cons_cons. simpl.
  by destruct (last (Next page' :: (Next <$> rest))) eqn:E;
    [|apply last_None in E].
Qed.

(** The loop follows a served chain one request a page, keeping the rows
    in order. *)
Lemma memberPages_served (pages : list Page) :
  forall (fuel : nat) (apiURL : string) (members : list baserow.Member)
         (log : list Request),
    served decode net apiToken (length log) apiURL pages ->
    memberPages int_of_float64 decode (length pages + fuel) net apiToken apiURL members log
    = memberPages int_of_float64 decode fuel net apiToken (addressAfter apiURL pages)
        (members ++ (memberOfRow int_of_float64 <$> concat (Results <$> pages)))
        (log ++ rowsRequests apiToken apiURL pages).
Proof.
  induction pages as [|page pages IH]; intros fuel apiURL members log Hs.
  - simpl. by rewrite !app_nil_r.
  - destruct Hs as (Hurl & (body & Hreply & Hdec) & Hrest).
    cbn [length Nat.add memberPages]. rewrite bool_decide_eq_false_2 by done.
    unfold Do. rewrite Hreply. simpl negb. cbv iota. rewrite Hdec. cbv zeta.
    rewrite IH.
    2: { rewrite length_app. simpl. by rewrite Nat.add_1_r. }
    rewrite addressAfter_cons, appendRows_fmap.
    cbn [fmap list_fmap concat rowsRequests].
    rewrite fmap_app, <- !app_assoc. done.
Qed.

(** X17.  [GetMembers] follows the [next] links from the first page of the
    table until a page has none, one request a page, and returns one
    member per row in the order served. *)
Theorem GetMembers_follows_next_links (fuel : nat) (log : list Request)
    (pages : list Page) :
  Getenv net "BASEROW_API_TOKEN" = apiToken -> apiToken <> "" ->
  Getenv net "BASEROW_MEMBER_TABLE_ID" <> "" ->
  let apiURL := firstURL (Getenv net "BASEROW_MEMBER_TABLE_ID") in
  served decode net apiToken (length log) apiURL pages ->
  addressAfter apiURL pages = "" ->
  (length pages <= fuel)%nat ->
  GetMembers int_of_float64 decode fuel net log
  = (Some (inr (memberOfRow int_of_float64 <$> concat (Results <$> pages))),
     log ++ rowsRequests apiToken apiURL pages).
Proof.
  intros Htok Htok' Htab apiURL Hserved Hend Hfuel.
  unfold GetMembers. rewrite Htok. rewrite !bool_decide_eq_false_2 by done.
  replace fuel with (length pages + (fuel - length pages))%nat by lia.
  fold apiURL. rewrite (memberPages_served pages _ apiURL [] log Hserved), Hend.
  by destruct (fuel - length pages)%nat.
Qed.

(** X18.  One page that cannot be had makes [GetMembers] fail: when the
    request for the page after a served chain is not answered, is answered
    with another status than 200 or with a body that does not decode, the
    error is returned and the members of the pages before are not. *)
Theorem GetMembers_fails_on_a_page (fuel : nat) (log : list Request)
    (pages : list Page) (err : string) :
  Getenv net "BASEROW_API_TOKEN" = apiToken -> apiToken <> "" ->
  Getenv net "BASEROW_MEMBER_TABLE_ID" <> "" ->
  let apiURL := firstURL (Getenv net "BASEROW_MEMBER_TABLE_ID") in
  served decode net apiToken (length log) apiURL pages ->
  addressAfter apiURL pages <> "" ->
  (let reply :=
     RoundTrip net (length log + length pages)
       (rowsRequest apiToken (addressAfter apiURL pages)) in
   reply = Failed err
   \/ (exists status body,
         reply = Replied status body /\ status <> 200
         /\ err = statusError "failed to get members" body status)
   \/ (exists body, reply = Replied 200 body /\ decode body = inl err)) ->
  (length pages < fuel)%nat ->
  GetMembers int_of_float64 decode fuel net log
  = (Some (inl err),
     log ++ rowsRequests apiToken apiURL pages
     ++ [rowsRequest apiToken (addressAfter apiURL pages)]).
Proof.
  intros Htok Htok' Htab apiURL Hserved Hnext Hreply Hfuel. cbv zeta in Hreply.
  unfold GetMembers. rewrite Htok. rewrite !bool_decide_eq_false_2 by done.
  replace fuel with (length pages + S (fuel - S (length pages)))%nat by lia.
  fold apiURL. rewrite (memberPages_served pages _ apiURL [] log Hserved).
  cbn [memberPages]. rewrite bool_decide_eq_false_2 by done.
  unfold Do. rewrite length_app.
  assert (El : length (rowsRequests apiToken apiURL pages) = length pages).
  { clear. generalize apiURL. induction pages as [|p ps IH]; intros u; [done|].
    simpl. by rewrite IH. }
  rewrite El, <- app_assoc.
  destruct Hreply as [->|[(status & body & -> & Hne & ->)|(body & -> & Hdec)]].
  - done.
  - apply Z.eqb_neq in Hne. rewrite Hne. done.
  - simpl. rewrite Hdec. done.
Qed.

End MembersService.

Section BrevoOutage.

Import helloasso brevo baserow main.

Context (env : world.Env).

Lemma sendEmailAndUpdate_failed_send (pair : MemberPaymentPair) (w : world.World) :
  (forall n data, world.brevo_reply env n data <> None) ->
  exists evs,
    world.trace (sendEmailAndUpdate env pair w).2 = world.trace w ++ evs
    /\ Forall (fun ev =>
                 match ev with
                 | world.EvUpdateMember written _ =>
                     Id written = Id (Member pair)
                     /\ LastContributionEmailDate written
                       = LastContributionEmailDate (Member pair)
                     /\ NumberContributionsEmail written
                       = NumberContributionsEmail (Member pair)
                 | world.EvSendEmail _ err => err <> None
                 end) evs.
Proof.
  intros Hfail.
  destruct (time.Before (LastContributionEmailDate (Member pair))
              (time.AddDate (world.clock env (world.ticks w)) 0 0 (-14))) eqn:Hg.
  - rewrite (sendEmailAndUpdate_sent env pair w Hg). simpl.
    eexists. split; [reflexivity|].
    pose proof (Hfail (length (world.trace w))
                  (emailData (world.text env)
                     (set_LastPaymentDate (OrderDate (Payment pair))
                        (set_ActiveMembership false (Member pair))))) as Hf.
    destruct (world.brevo_reply env _ _) as [e|]; [|done].
    repeat constructor; done.
  - rewrite (sendEmailAndUpdate_suppressed env pair w Hg). simpl.
    exists []. by rewrite app_nil_r.
Qed.

(** X21.  While Brevo answers every send with an error, a run marks no
    member as reminded: every write carries the last-reminder date of a
    fetched member as stored, with the reminder count as stored or, on a
    status update, zero. *)
Theorem outage_marks_nobody_reminded (ups : list helloasso.Payment)
    (members : list baserow.Member) (w : world.World) :
  (forall n data, world.brevo_reply env n data <> None) ->
  Forall
    (fun ev =>
       match ev with
       | world.EvUpdateMember written _ =>
           exists member,
             member ∈ members
             /\ Id written = Id member
             /\ LastContributionEmailDate written = LastContributionEmailDate member
             /\ (NumberContributionsEmail written = NumberContributionsEmail member
                 \/ NumberContributionsEmail written = 0)
       | world.EvSendEmail _ err => err <> None
       end)
    (effects.newEvents w (reconcile env ups members w).2).
Proof.
  intros Hfail. rewrite reconcile_unfold. cbv zeta.
  set (pairs := membersWithPayment ups (membersByEmail members)).
  set (oneYearAgo := time.AddDate (world.clock env (world.ticks w)) (-1) 0 0).
  set (w1 := world.mkWorld (S (world.ticks w)) (world.trace w)).
  set (Q := fun (pair : MemberPaymentPair) ev =>
              match ev with
              | world.EvUpdateMember written _ =>
                  Id written = Id (Member pair)
                  /\ LastContributionEmailDate written
                     = LastContributionEmailDate (Member pair)
                  /\ (NumberContributionsEmail written
                      = NumberContributionsEmail (Member pair)
                      \/ NumberContributionsEmail written = 0)
              | world.EvSendEmail _ err => err <> None
              end).
  destruct (ForEach_events (sendEmailAndUpdate env) Q
              (membersToUpdatePaymentNeeded oneYearAgo pairs)) with (w := w1)
    as (evs1 & E1 & H1).
  { intros pair w0 _.
    destruct (sendEmailAndUpdate_failed_send pair w0 Hfail) as (evs & E & Hev).
    exists evs. split; [done|]. eapply Forall_impl; [exact Hev|].
    intros [data err|written err]; simpl; [done|].
    intros (Hi & Hd & Hn). split_and!; [done..|by left]. }
  destruct (ForEach_events (updateValidMembers env) Q
              (membersToUpdateStatusUpdate oneYearAgo pairs))
    with (w := (lo.ForEach (membersToUpdatePaymentNeeded oneYearAgo pairs)
                  (sendEmailAndUpdate env) w1).2)
    as (evs2 & E2 & H2).
  { intros pair w0 _. rewrite updateValidMembers_run. simpl.
    eexists. split; [reflexivity|]. constructor; [|constructor].
    simpl. split_and!; [done..|by right]. }
  rewrite (newEvents_app w _ (evs1 ++ evs2)).
  2: { rewrite E2, E1. simpl. by rewrite app_assoc. }
  assert (Hmem : forall pair, pair ∈ pairs -> Member pair ∈ members).
  { intros pair Hp. apply elem_of_membersWithPayment in Hp as [_ Hidx].
    by apply membersByEmail_Some in Hidx as [? _]. }
  apply Forall_app. split.
  - eapply Forall_impl; [exact H1|]. intros ev (pair & Hin & Hev).
    apply elem_of_Filter in Hin as [Hin _].
    destruct ev as [data err|written err]; [done|].
    exists (Member pair). split; [by apply Hmem|done].
  - eapply Forall_impl; [exact H2|]. intros ev (pair & Hin & Hev).
    apply elem_of_Filter in Hin as [Hin _].
    destruct ev as [data err|written err]; [done|].
    exists (Member pair). split; [by apply Hmem|done].
Qed.

End BrevoOutage.

Section EndlessPages.

Import helloasso net helloasso_api.

Context (decodeToken : string -> string + TokenResponse).
Context (decodePayments : string -> string + PaymentResponse).
Context (net : Net).

(** The loop has no other way out than a page without entries, a failed
    request or a body that does not decode. *)
Lemma paymentPages_goes_on (first : nat) (token orgSlug fromDate : string) :
  (forall n req, (first <= n)%nat ->
     exists body page,
       RoundTrip net n req = Replied 200 body
       /\ decodePayments body = inr page /\ Data page <> []) ->
  forall (fuel : nat) (pageIndex : Z) (allPayments : list helloasso.Payment)
         (log : list Request),
    (first <= length log)%nat ->
    (paymentPages decodePayments fuel net token orgSlug fromDate pageIndex allPayments log).1
    = None.
Proof.
  intros Hfull. induction fuel as [|fuel IH]; intros pageIndex allPayments log Hlog; [done|].
  cbn [paymentPages]. unfold Do.
  destruct (Hfull (length log) (pageRequest token orgSlug fromDate pageIndex) Hlog)
    as (body & page & -> & Hdec & Hdata).
  simpl negb. cbv iota. rewrite Hdec. cbv zeta.
  destruct (Data page) as [|item data] eqn:ED; [done|].
  cbn [length Nat.eqb]. apply IH. rewrite length_app. simpl. lia.
Qed.

(** X22.  [GetPayments] stops on nothing but a page without entries or an
    error; the page counts of the [pagination] block are not read.  While
    the remote side answers every page request with entries, no number of
    requests brings it to return. *)
Theorem GetPayments_goes_on_while_pages_have_entries (log log1 : list Request)
    (token : string) :
  getOAuthToken decodeToken net log = (inr token, log1) ->
  Getenv net "HELLOASSO_ORG_SLUG" <> "" ->
  Getenv net "HELLOASSO_FROM_DATE" <> "" ->
  (forall n req, (length log1 <= n)%nat ->
     exists body page,
       RoundTrip net n req = Replied 200 body
       /\ decodePayments body = inr page /\ Data page <> []) ->
  forall fuel, (GetPayments decodeToken decodePayments fuel net log).1 = None.
Proof.
  intros Htok Horg Hfrom Hfull fuel.
  unfold GetPayments. rewrite Htok.
  rewrite !bool_decide_eq_false_2 by done. simpl orb. cbv iota.
  by apply (paymentPages_goes_on (length log1)).
Qed.

End EndlessPages.

(** ** The statements above on the sample services *)

Section OnSampleServices.

Import helloasso brevo baserow main net sample_services.

Local Abbreviation threshold := (time.AddDate (sample.day "2026-10-30") (-1) 0 0).
Local Abbreviation int_of_Z := (fun z : Z => z).

(** The sample row of a member holds what [UpdateMember] sends for it. *)
Lemma storedRow_lookups (member : baserow.Member) :
  storedRow member !! "Active MemberShip" = Some (JBool (ActiveMembership member))
  /\ storedRow member !! "Last Payment Date"
     = Some (JString (time.Format_date (LastPaymentDate member)))
  /\ storedRow member !! "Last Contribution Email Date"
     = Some (JString (time.Format_date (LastContributionEmailDate member))).
Proof.
  unfold storedRow.
  generalize (time.Format_date (LastPaymentDate member)),
    (time.Format_date (LastContributionEmailDate member)),
    (Id member), (baserow.Email member), (ActiveMembership member),
    (NumberContributionsEmail member).
  intros p c i e a n. vm_compute. done.
Qed.

Lemma storedRow_stores (member : baserow.Member) :
  baserow_api.stores (storedRow member) member.
Proof.
  destruct (storedRow_lookups member) as (Ha & Hp & Hc).
  intros fields Hf. unfold baserow_api.payload in Hf. injection Hf as <-.
  intros key v Hin.
  repeat (apply elem_of_cons in Hin as [Hin|Hin];
          [injection Hin as -> ->; done|]).
  by apply elem_of_nil in Hin.
Qed.

Lemma pairs_handled_at_most_once_witness :
  NoDup (membersWithPayment [sample.recent; sample.tieA]
           (membersByEmail [sample.ada; sample.bob])).
Proof.
  exact (proj1 (proj2
    (pairs_handled_at_most_once sample.payments [sample.recent; sample.tieA]
       (membersByEmail [sample.ada; sample.bob]) threshold sample_reduced_swapped))).
Defined.

Lemma no_match_no_call_witness :
  reconcile sample.env [sample.recent] [sample.ada] sample.w0
  = (tt, world.mkWorld 1 []).
Proof.
  apply (no_match_no_call sample.env [sample.recent] [sample.ada] sample.w0).
  intros payment member Hp Hm.
  apply list_elem_of_singleton in Hp. apply list_elem_of_singleton in Hm.
  rewrite Hp, Hm. vm_compute. reflexivity.
Defined.

Lemma mail_only_for_lapsed_payments_witness :
  exists pair,
    pair ∈ membersWithPayment [lapsed] (membersByEmail [sample.bob])
    /\ emailData sample.asciiText
         (set_LastPaymentDate (OrderDate lapsed) (set_ActiveMembership false sample.bob))
       = emailData sample.asciiText
           (set_LastPaymentDate (OrderDate (Payment pair))
              (set_ActiveMembership false (Member pair)))
    /\ time.Before (OrderDate (Payment pair)) threshold = true
    /\ exists n, time.Before (LastContributionEmailDate (Member pair))
                   (time.AddDate (world.clock sample.env n) 0 0 (-14)) = true.
Proof.
  apply (mail_only_for_lapsed_payments sample.env [lapsed] [sample.bob] sample.w0
           (emailData sample.asciiText
              (set_LastPaymentDate (OrderDate lapsed)
                 (set_ActiveMembership false sample.bob)))
           None).
  vm_compute. left.
Defined.

Lemma written_member_reads_back_witness :
  ActiveMembership (memberOfRow int_of_Z (storedRow sample.ada)) = true
  /\ LastPaymentDate (memberOfRow int_of_Z (storedRow sample.ada))
     = dates.dayStartUTC (sample.day "2024-01-10")
  /\ LastContributionEmailDate (memberOfRow int_of_Z (storedRow sample.ada))
     = dates.dayStartUTC (sample.day "2026-10-25").
Proof.
  assert (H1 : 0 <= dates.Year (LastPaymentDate sample.ada) <= 9999)
    by (split; apply Z.leb_le; vm_compute; reflexivity).
  assert (H2 : 0 <= dates.Year (LastContributionEmailDate sample.ada) <= 9999)
    by (split; apply Z.leb_le; vm_compute; reflexivity).
  pose proof (written_member_reads_back int_of_Z (storedRow sample.ada) sample.ada
                H1 H2 (storedRow_stores sample.ada)) as (Ha & Hp & Hc & _).
  exact (conj Ha (conj Hp Hc)).
Defined.

Lemma status_update_settles_witness :
  statusUpdate threshold
    (mkPair
       (memberOfRow int_of_Z
          (storedRow
             (set_NumberContributionsEmail 0
                (set_LastPaymentDate (OrderDate sample.recent)
                   (set_ActiveMembership true sample.bob)))))
       sample.recent)
  = false.
Proof.
  apply (status_update_settles int_of_Z threshold (mkPair sample.bob sample.recent)).
  - split; apply Z.leb_le; vm_compute; reflexivity.
  - apply storedRow_stores.
Defined.

Lemma GetPayments_collects_pages_witness :
  helloasso_api.GetPayments decodeToken decodePayments 3 helloasso_up []
  = (Some (inr [lapsed]),
     [helloasso_api.tokenRequest "client" "secret"]
     ++ helloasso_api.pageRequests "access" "boavizta" "2023-01-01" 0 2).
Proof.
  apply (GetPayments_collects_pages decodeToken decodePayments helloasso_up
           "access" "boavizta" "2023-01-01" 3 []
           [helloasso_api.tokenRequest "client" "secret"] [page1] "page 2" page2).
  - reflexivity.
  - reflexivity.
  - intros H. discriminate H.
  - reflexivity.
  - intros H. discriminate H.
  - split; [exists "page 1"; split; reflexivity|].
    split; [intros H; discriminate H|exact I].
  - reflexivity.
  - reflexivity.
  - reflexivity.
  - simpl. lia.
Defined.

Lemma GetPayments_fails_on_a_page_witness :
  helloasso_api.GetPayments decodeToken decodePayments 3 helloasso_busy []
  = (Some (inl "failed to get payments: busy, status code: 503"),
     [helloasso_api.tokenRequest "client" "secret"]
     ++ helloasso_api.pageRequests "access" "boavizta" "2023-01-01" 0 2).
Proof.
  apply (GetPayments_fails_on_a_page decodeToken decodePayments helloasso_busy
           "access" "boavizta" "2023-01-01" 3 []
           [helloasso_api.tokenRequest "client" "secret"] [page1]
           "failed to get payments: busy, status code: 503").
  - reflexivity.
  - reflexivity.
  - intros H. discriminate H.
  - reflexivity.
  - intros H. discriminate H.
  - split; [exists "page 1"; split; reflexivity|].
    split; [intros H; discriminate H|exact I].
  - right. left. exists 503, "busy". split; [reflexivity|].
    split; [intros H; discriminate H|vm_compute; reflexivity].
  - simpl. lia.
Defined.

Lemma GetPayments_settings_witness :
  helloasso_api.GetPayments decodeToken decodePayments 3 unset []
  = (Some (inl "HELLOASSO_API_ID and HELLOASSO_API_SECRET environment variables must be set"),
     []).
Proof.
  apply (proj1 (GetPayments_settings decodeToken decodePayments unset "access" 3 [])).
  left. reflexivity.
Defined.

Lemma GetMembers_follows_next_links_witness :
  baserow_api.GetMembers int_of_Z decodeRows 2 baserow_up []
  = (Some (inr [memberOfRow int_of_Z (storedRow sample.ada);
                memberOfRow int_of_Z (storedRow sample.bob)]),
     [baserow_api.rowsRequest "token" (baserow_api.firstURL "42");
      baserow_api.rowsRequest "token" secondPage]).
Proof.
  apply (GetMembers_follows_next_links int_of_Z decodeRows baserow_up "token" 2 []
           [rows1; rows2]).
  - reflexivity.
  - intros H. discriminate H.
  - intros H. discriminate H.
  - split; [intros H; vm_compute in H; discriminate H|].
    split; [exists "rows 1"; split; vm_compute; reflexivity|].
    split; [intros H; discriminate H|].
    split; [exists "rows 2"; split; vm_compute; reflexivity|exact I].
  - reflexivity.
  - simpl. lia.
Defined.

Lemma GetMembers_fails_on_a_page_witness :
  baserow_api.GetMembers int_of_Z decodeRows 2 baserow_down []
  = (Some (inl "failed to get members: bad gateway, status code: 502"),
     [baserow_api.rowsRequest "token" (baserow_api.firstURL "42");
      baserow_api.rowsRequest "token" secondPage]).
Proof.
  apply (GetMembers_fails_on_a_page int_of_Z decodeRows baserow_down "token" 2 []
           [rows1] "failed to get members: bad gateway, status code: 502").
  - reflexivity.
  - intros H. discriminate H.
  - intros H. discriminate H.
  - split; [intros H; vm_compute in H; discriminate H|].
    split; [exists "rows 1"; split; vm_compute; reflexivity|exact I].
  - intros H. discriminate H.
  - right. left. exists 502, "bad gateway". split; [vm_compute; reflexivity|].
    split; [intros H; discriminate H|vm_compute; reflexivity].
  - simpl. lia.
Defined.

Lemma outage_marks_nobody_reminded_witness :
  Forall
    (fun ev =>
       match ev with
       | world.EvUpdateMember written _ =>
           exists member,
             member ∈ [sample.bob]
             /\ Id written = Id member
             /\ LastContributionEmailDate written = LastContributionEmailDate member
             /\ (NumberContributionsEmail written = NumberContributionsEmail member
                 \/ NumberContributionsEmail written = 0)
       | world.EvSendEmail _ err => err <> None
       end)
    (effects.newEvents sample.w0 (reconcile outage [lapsed] [sample.bob] sample.w0).2).
Proof.
  apply (outage_marks_nobody_reminded outage [lapsed] [sample.bob] sample.w0).
  intros n data H. discriminate H.
Defined.

Lemma GetPayments_goes_on_while_pages_have_entries_witness :
  (helloasso_api.GetPayments decodeToken decodePayments 1000 helloasso_endless []).1 = None.
Proof.
  apply (GetPayments_goes_on_while_pages_have_entries decodeToken decodePayments
           helloasso_endless [] [helloasso_api.tokenRequest "client" "secret"] "access").
  - reflexivity.
  - intros H. discriminate H.
  - intros H. discriminate H.
  - intros n req Hn. exists "page 1", page1.
    destruct n as [|n]; [simpl in Hn; lia|].
    split; [reflexivity|]. split; [reflexivity|]. intros H. discriminate H.
Defined.

End OnSampleServices.

Section OnSuppression.

Import helloasso brevo baserow main sample_services.



End OnSuppression.
